(** * Download providers of the music bot: ShrutiAPI and Youtubify

    A shallow embedding of the two download-only providers
    ([ShrutiAPIPlatform], source file of package [platforms], and
    [YoutubifyPlatform], [internal/platforms/xyz.go]) and the properties
    the specification states about them.

    The Go code talks to a file system, to two HTTP endpoints and to a
    [context.Context].  The embedding threads the file system explicitly,
    takes everything the outside world decides (HTTP replies, body reads,
    OS failures, the moment the context fires) from a [World] record, and
    returns the list of observable [Event]s next to each result. *)

From Stdlib Require Import ZArith String Ascii List Bool Lia.
From Stdlib.Strings Require Import Byte.
From stdpp Require Import gmap strings list fin_maps.

Local Open Scope string_scope.
Local Open Scope list_scope.
Local Open Scope Z_scope.

(** ** Go errors *)

(** The error values the two files build or inspect.  [fmt_Errorf_w msg e]
    is [fmt.Errorf(msg + ": %w", e)]; [fmt_Errorf_d] and [fmt_Errorf_s] are
    the [%d] and [%s] forms, which do not wrap.  [url_Error] is the
    [*url.Error] in which [net/http] wraps every failure of [Client.Do];
    [http_timeoutError] is the error of a client whose own [Timeout]
    ran out, which has an [Is] method; [sys_Error] stands for any other
    error coming from the operating system or the transport, one that
    wraps nothing and has no [Is] method. *)
Inductive error : Type :=
| errors_New (msg : string)
| fmt_Errorf_w (msg : string) (cause : error)
| fmt_Errorf_d (msg : string) (n : Z)
| fmt_Errorf_s (msg : string) (s : string)
| context_Canceled
| context_DeadlineExceeded
| io_EOF
| url_Error (op url : string) (cause : error)
| http_timeoutError (msg : string)
| sys_Error (msg : string).

(** [err == target] on error values. *)
Fixpoint error_eqb (a b : error) : bool :=
  match a, b with
  | errors_New m, errors_New m' => String.eqb m m'
  | fmt_Errorf_w m c, fmt_Errorf_w m' c' => String.eqb m m' && error_eqb c c'
  | fmt_Errorf_d m n, fmt_Errorf_d m' n' => String.eqb m m' && Z.eqb n n'
  | fmt_Errorf_s m s, fmt_Errorf_s m' s' => String.eqb m m' && String.eqb s s'
  | context_Canceled, context_Canceled => true
  | context_DeadlineExceeded, context_DeadlineExceeded => true
  | io_EOF, io_EOF => true
  | url_Error o u c, url_Error o' u' c' =>
      String.eqb o o' && String.eqb u u' && error_eqb c c'
  | http_timeoutError m, http_timeoutError m' => String.eqb m m'
  | sys_Error m, sys_Error m' => String.eqb m m'
  | _, _ => false
  end.

(** The [Is] methods: the timeout error of [net/http] answers true to
    [context.DeadlineExceeded], and no other error here has one. *)
Definition Is_method (err target : error) : bool :=
  match err, target with
  | http_timeoutError _, context_DeadlineExceeded => true
  | _, _ => false
  end.

(** [errors.Is]: compare, ask the [Is] method, then follow [Unwrap]. *)
Fixpoint errors_Is (err target : error) : bool :=
  error_eqb err target || Is_method err target ||
  match err with
  | fmt_Errorf_w _ cause => errors_Is cause target
  | url_Error _ _ cause => errors_Is cause target
  | _ => false
  end.

(** The test both request phases apply to a failed request:
    [errors.Is(err, context.Canceled) || errors.Is(err, context.DeadlineExceeded)]. *)
Definition is_cancellation (err : error) : bool :=
  errors_Is err context_Canceled || errors_Is err context_DeadlineExceeded.

(** ** Paths: [filepath.Join] on a slash-separated system *)

Fixpoint has_slash (s : string) : bool :=
  match s with
  | EmptyString => false
  | String c s' => Ascii.eqb c "/" || has_slash s'
  end.

(** The elements of a path between its separators. *)
Fixpoint components (s : string) : list string :=
  match s with
  | EmptyString => [EmptyString]
  | String c s' =>
      if Ascii.eqb c "/" then EmptyString :: components s'
      else match components s' with
           | w :: ws => String c w :: ws
           | [] => [String c EmptyString]
           end
  end.

(** One element of [filepath.Clean]: empty and [.] elements vanish, [..]
    removes the element before it (or stays, at the start of a relative
    path), anything else is kept.  [stack] holds the kept elements, last
    one first. *)
Definition clean_step (rooted : bool) (stack : list string) (elem : string)
  : list string :=
  if String.eqb elem "" || String.eqb elem "." then stack
  else if String.eqb elem ".." then
    match stack with
    | top :: rest => if String.eqb top ".." then elem :: stack else rest
    | [] => if rooted then [] else [elem]
    end
  else elem :: stack.

Definition filepath_Clean (p : string) : string :=
  let rooted := match p with String c _ => Ascii.eqb c "/" | _ => false end in
  let kept := rev (fold_left (clean_step rooted) (components p) []) in
  let body := String.concat "/" kept in
  if rooted then "/" +:+ body
  else if String.eqb body "" then "." else body.

(** [filepath.Join]: the non-empty elements, joined by the separator, then
    cleaned; the empty string when nothing is left. *)
Definition filepath_Join (elems : list string) : string :=
  match List.filter (fun e => negb (String.eqb e "")) elems with
  | [] => ""
  | es => filepath_Clean (String.concat "/" es)
  end.

(** ** The file system and the outside world *)

(** Regular files by path.  Directories are not tracked: the only
    directory operation, creating [downloads], shows through its error.
    A key is a path as the operating system resolves it; a path text
    without [.], [..] or doubled separators is its own key. *)
Abbreviation FS := (gmap string (list byte)).

(** [os.Stat(path)]: the size, or nothing when the file is missing. *)
Definition os_Stat (fs : FS) (path : string) : option Z :=
  (fun content => Z.of_nat (length content)) <$> fs !! path.

(** [os.Remove(path)]; both callers drop its result. *)
Definition os_Remove (fs : FS) (path : string) : FS := delete path fs.

(** One call of [Body.Read]: the bytes delivered and the error returned
    with them.  A body is the list of its reads; past its end [Read]
    returns [0, io.EOF]. *)
Definition ReadEv : Type := list byte * option error.

Record Response := {
  StatusCode : Z;
  Status : string;
  Body : list ReadEv
}.

(** What the server (or the transport) answers to one request. *)
Inductive HttpReply :=
| HttpErr (e : error)
| HttpRedirect (location : string)
| HttpResp (r : Response).

(** What [resty] hands back for the control-plane request: an error that
    arose before anything was sent (the context was already done), an
    error of the request that was sent, or a status together with the
    [download_token] field of the body. *)
Inductive RestyReply :=
| RestyUnsent (e : error)
| RestyErr (e : error)
| RestyResp (status : Z) (download_token : string).

Record World := {
  (** [ctx.Err()] at the k-th poll of [ctx.Done()] in the chunk loop. *)
  ctx_Err : nat -> option error;
  (** Outcome of creating the [downloads] directory. *)
  mkdir_downloads : option error;
  (** Control plane: base URL, [url] and [type] query parameters. *)
  control_plane : string -> string -> string -> RestyReply;
  (** [http.NewRequestWithContext] on a URL. *)
  new_request : string -> option error;
  (** Data plane: the reply to the n-th request of one [Client.Do]. *)
  data_plane : nat -> string -> HttpReply;
  (** [os.Create] on a path. *)
  create_err : string -> option error;
  (** [File.Write] for the k-th read: all bytes written, or only the
      first [n] together with an error. *)
  write_result : nat -> option (nat * error)
}.

Inductive Event :=
| EvControlGet (base video_id media_type : string)
| EvHttpGet (url : string)
| EvCtxPoll
| EvBodyRead.

Definition is_network (ev : Event) : bool :=
  match ev with
  | EvControlGet _ _ _ | EvHttpGet _ | EvBodyRead => true
  | EvCtxPoll => false
  end.

Definition is_read (ev : Event) : bool :=
  match ev with EvBodyRead => true | _ => false end.

Definition is_poll (ev : Event) : bool :=
  match ev with EvCtxPoll => true | _ => false end.

Definition is_http_get (ev : Event) : bool :=
  match ev with EvHttpGet _ => true | _ => false end.

Definition count (p : Event -> bool) (tr : list Event) : nat :=
  length (List.filter p tr).

(** ** [net/http]: following redirects *)

(** The two fields of [http.Client] the code sets.  [CheckRedirect] gets
    the upcoming request and the requests made already, oldest first. *)
Record http_Client := {
  Timeout : Z;
  CheckRedirect : string -> list string -> option error
}.

Definition Result : Type := (Response + error)%type.

(** The loop of [Client.Do].  [req] is the request about to be sent and
    [reqs] the ones sent before it.  A redirect reply is followed only if
    [CheckRedirect] lets it pass; its error, like a transport error, comes
    back wrapped in a [*url.Error].  The loop of the library has no bound
    of its own, hence [fuel]: [None] means the fuel ran out. *)
Fixpoint http_Client_do (fuel : nat) (c : http_Client)
    (server : nat -> string -> HttpReply) (req : string) (reqs : list string)
  : option (Result * list Event) :=
  match fuel with
  | O => None
  | S fuel' =>
      match server (length reqs) req with
      | HttpErr e => Some (inr (url_Error "Get" req e), [EvHttpGet req])
      | HttpResp r => Some (inl r, [EvHttpGet req])
      | HttpRedirect loc =>
          match CheckRedirect c loc (reqs ++ [req]) with
          | Some e => Some (inr (url_Error "Get" loc e), [EvHttpGet req])
          | None =>
              match http_Client_do fuel' c server loc (reqs ++ [req]) with
              | Some (res, tr) => Some (res, EvHttpGet req :: tr)
              | None => None
              end
          end
      end
  end.

(** The policy of a client that sets no [CheckRedirect]. *)
Definition defaultCheckRedirect (req : string) (via : list string)
  : option error :=
  if (10 <=? Z.of_nat (length via))
  then Some (errors_New "stopped after 10 redirects") else None.

(** ** Writing a chunk *)

(** [if n > 0 { outFile.Write(buf[:n]) }] for the k-th read: the bytes
    that reach the file, and the write error if there is one. *)
Definition write_chunk (w : World) (k : nat) (path : string)
    (chunk : list byte) (fs : FS) : option error * FS :=
  match chunk with
  | [] => (None, fs)
  | _ =>
      match write_result w k with
      | None => (None, alter (fun old => old ++ chunk) path fs)
      | Some (n, e) =>
          (Some e, alter (fun old => old ++ firstn n chunk) path fs)
      end
  end.

(** ** Types of the [state] package used here *)

Definition PlatformName : Type := string.

Record Track := {
  ID : string;
  Title : string;
  Video : bool
}.

(** Modelled from the spec: [ensureDownloadsDir] is defined in another
    file of the package.  The spec has a single [downloads] directory,
    created on demand; what the caller sees is the error, if any. *)
Definition ensureDownloadsDir (w : World) : option error :=
  mkdir_downloads w.

(** ** The ShrutiAPI provider *)

Module ShrutiAPIPlatform.

Definition PlatformShrutiAPI : PlatformName := "ShrutiAPI".

Record t := {
  name : PlatformName;
  apiURL : string
}.

(** The instance [init] registers, with priority 75. *)
Definition registered : t :=
  {| name := PlatformShrutiAPI; apiURL := "https://shrutibots.site" |}.

(** [resp.IsError()] and the range in which [resty] fills [SetResult]. *)
Definition IsError (status : Z) : bool := 399 <? status.
Definition IsSuccess (status : Z) : bool := (199 <? status) && (status <? 300).

Section Methods.

(** Declared elsewhere in the package. *)
Variable PlatformYouTube : PlatformName.
(** The cache lookup, also declared elsewhere: a path and a nil error on
    a hit. *)
Variable checkDownloadedFile : FS -> string -> string * option error.

Definition Name (s : t) : PlatformName := name s.

Definition IsValid (s : t) (query : string) : bool := false.

Definition GetTracks (s : t) (_ : string) (_ : bool)
  : list Track * option error :=
  ([], Some (errors_New "shrutiapi is a download-only platform")).

Definition IsDownloadSupported (s : t) (source : PlatformName) : bool :=
  String.eqb source PlatformYouTube.

Definition getDownloadToken (w : World) (s : t) (videoID mediaType : string)
  : (string * option error) * list Event :=
  let endpoint := apiURL s +:+ "/download" in
  let tr := [EvControlGet endpoint videoID mediaType] in
  match control_plane w endpoint videoID mediaType with
  | RestyUnsent err =>
      if is_cancellation err then (("", Some err), [])
      else (("", Some (fmt_Errorf_w "api request failed" err)), [])
  | RestyErr err =>
      if is_cancellation err then (("", Some err), tr)
      else (("", Some (fmt_Errorf_w "api request failed" err)), tr)
  | RestyResp status download_token =>
      if IsError status
      then (("", Some (fmt_Errorf_d "api returned status" status)), tr)
      else
        let DownloadToken :=
          if IsSuccess status then download_token else "" in
        if String.eqb DownloadToken ""
        then (("", Some (errors_New "empty download token received")), tr)
        else ((DownloadToken, None), tr)
  end.

Definition streamURL (s : t) (videoID mediaType token : string) : string :=
  apiURL s +:+ "/stream/" +:+ videoID +:+ "?type=" +:+ mediaType
    +:+ "&token=" +:+ token.

(** The client of [downloadFile]; the timeout is in seconds. *)
Definition client (mediaType : string) : http_Client :=
  {| Timeout := if String.eqb mediaType "video" then 600 else 300;
     CheckRedirect := fun req via =>
       if (10 <=? Z.of_nat (length via))
       then Some (errors_New "too many redirects") else None |}.

(** The chunk loop of [downloadFile], at its k-th round: poll the
    context, read, write what was read, stop at [io.EOF] or at an
    error. *)
Fixpoint stream_loop (w : World) (filePath : string) (body : list ReadEv)
    (k : nat) (fs : FS) : option error * FS * list Event :=
  match ctx_Err w k with
  | Some e => (Some e, fs, [EvCtxPoll])
  | None =>
      match body with
      | [] => (None, fs, [EvCtxPoll; EvBodyRead])
      | (chunk, rerr) :: rest =>
          match write_chunk w k filePath chunk fs with
          | (Some writeErr, fs') =>
              (Some (fmt_Errorf_w "write error" writeErr), fs',
               [EvCtxPoll; EvBodyRead])
          | (None, fs') =>
              match rerr with
              | Some err =>
                  if error_eqb err io_EOF
                  then (None, fs', [EvCtxPoll; EvBodyRead])
                  else (Some (fmt_Errorf_w "read error" err), fs',
                        [EvCtxPoll; EvBodyRead])
              | None =>
                  let '(r, fs'', tr) :=
                    stream_loop w filePath rest (S k) fs' in
                  (r, fs'', EvCtxPoll :: EvBodyRead :: tr)
              end
          end
      end
  end.

Definition downloadFile (fuel : nat) (w : World) (s : t)
    (videoID mediaType token filePath : string) (fs : FS)
  : option (option error * FS * list Event) :=
  let url := streamURL s videoID mediaType token in
  match new_request w url with
  | Some err => Some (Some (fmt_Errorf_w "failed to create request" err), fs, [])
  | None =>
      match http_Client_do fuel (client mediaType) (data_plane w) url [] with
      | None => None
      | Some (inr err, tr) =>
          if is_cancellation err then Some (Some err, fs, tr)
          else Some (Some (fmt_Errorf_w "request failed" err), fs, tr)
      | Some (inl resp, tr) =>
          if negb (StatusCode resp =? 200)
          then Some (Some (fmt_Errorf_d "unexpected status code"
                             (StatusCode resp)), fs, tr)
          else
            match create_err w filePath with
            | Some err =>
                Some (Some (fmt_Errorf_w "failed to create file" err), fs, tr)
            | None =>
                let '(r, fs', tr') :=
                  stream_loop w filePath (Body resp) 0 (<[filePath := []]> fs) in
                Some (r, fs', tr ++ tr')
            end
      end
  end.

Definition mediaType_of (track : Track) : string :=
  if Video track then "video" else "audio".

Definition ext_of (track : Track) : string :=
  if Video track then ".mp4" else ".mp3".

Definition filePath_of (track : Track) : string :=
  filepath_Join ["downloads"; ID track +:+ ext_of track].

Definition Download (fuel : nat) (w : World) (s : t) (track : Track) (fs : FS)
  : option ((string * option error) * FS * list Event) :=
  match checkDownloadedFile fs (ID track) with
  | (path, None) => Some ((path, None), fs, [])
  | (_, Some _) =>
      match ensureDownloadsDir w with
      | Some err =>
          Some (("", Some (fmt_Errorf_w "failed to create downloads directory"
                             err)), fs, [])
      | None =>
          let videoID := ID track in
          let mediaType := mediaType_of track in
          let filePath := filePath_of track in
          match getDownloadToken w s videoID mediaType with
          | ((_, Some err), tr) =>
              Some (("", Some (fmt_Errorf_w "failed to get download token"
                                 err)), fs, tr)
          | ((token, None), tr) =>
              match downloadFile fuel w s videoID mediaType token filePath fs with
              | None => None
              | Some (Some err, fs', tr') =>
                  Some (("", Some (fmt_Errorf_w "download failed" err)),
                        os_Remove fs' filePath, tr ++ tr')
              | Some (None, fs', tr') =>
                  match os_Stat fs' filePath with
                  | Some size =>
                      if size =? 0
                      then Some (("", Some (errors_New
                                    "downloaded file is empty or missing")),
                                 os_Remove fs' filePath, tr ++ tr')
                      else Some ((filePath, None), fs', tr ++ tr')
                  | None =>
                      Some (("", Some (errors_New
                               "downloaded file is empty or missing")),
                            os_Remove fs' filePath, tr ++ tr')
                  end
              end
          end
      end
  end.

End Methods.

End ShrutiAPIPlatform.

(** ** The Youtubify provider *)

Module YoutubifyPlatform.

Definition PlatformYoutubify : PlatformName := "xyz".

Definition apiBase : string := "https://youtubify.me".

Section Methods.

(** [state.PlatformYouTube], and the key read from the environment. *)
Variable PlatformYouTube : PlatformName.
Variable apiKey : string.

Definition Name : PlatformName := PlatformYoutubify.

Definition IsValid (query : string) : bool := false.

Definition GetTracks (query : string) : list Track * option error :=
  ([], Some (errors_New "Youtubify is a direct download platform")).

Definition IsDownloadSupported (source : PlatformName) : bool :=
  String.eqb source PlatformYouTube.

(** [io.Copy(out, resp.Body)]: read and write until [io.EOF], which is
    not an error, or until a read or a write fails.  The client has no
    timeout and the context is not consulted: that the reads come to an
    end is the server's doing, which a body given as a list assumes. *)
Fixpoint io_Copy (w : World) (path : string) (body : list ReadEv)
    (k : nat) (fs : FS) : option error * FS * list Event :=
  match body with
  | [] => (None, fs, [EvBodyRead])
  | (chunk, rerr) :: rest =>
      match write_chunk w k path chunk fs with
      | (Some ew, fs') => (Some ew, fs', [EvBodyRead])
      | (None, fs') =>
          match rerr with
          | Some er =>
              (if error_eqb er io_EOF then None else Some er, fs',
               [EvBodyRead])
          | None =>
              let '(r, fs'', tr) := io_Copy w path rest (S k) fs' in
              (r, fs'', EvBodyRead :: tr)
          end
      end
  end.

Definition download_url (videoID : string) : string :=
  apiBase +:+ "/download/audio?video_id=" +:+ videoID
    +:+ "&mode=download&no_redirect=1&api_key=" +:+ apiKey.

(** [&http.Client{}]: no timeout, the default redirect policy. *)
Definition client : http_Client :=
  {| Timeout := 0; CheckRedirect := defaultCheckRedirect |}.

(** The path is the text [fmt.Sprintf] builds, not cleaned; it is the
    key of the file when [videoID] has no separator in it. *)
Definition downloadAudio (fuel : nat) (w : World) (videoID : string) (fs : FS)
  : option ((string * option error) * FS * list Event) :=
  let filepath := "downloads/" +:+ videoID +:+ ".mp3" in
  match os_Stat fs filepath with
  | Some _ => Some ((filepath, None), fs, [])
  | None =>
      match mkdir_downloads w with
      | Some err => Some (("", Some err), fs, [])
      | None =>
          let url := download_url videoID in
          match new_request w url with
          | Some err => Some (("", Some err), fs, [])
          | None =>
              match http_Client_do fuel client (data_plane w) url [] with
              | None => None
              | Some (inr err, tr) => Some (("", Some err), fs, tr)
              | Some (inl resp, tr) =>
                  if negb (StatusCode resp =? 200)
                  then Some (("", Some (fmt_Errorf_s "API returned"
                                          (Status resp))), fs, tr)
                  else
                    match create_err w filepath with
                    | Some err => Some (("", Some err), fs, tr)
                    | None =>
                        let '(r, fs', tr') :=
                          io_Copy w filepath (Body resp) 0
                            (<[filepath := []]> fs) in
                        match r with
                        | Some err => Some (("", Some err), fs', tr ++ tr')
                        | None => Some ((filepath, None), fs', tr ++ tr')
                        end
                    end
              end
          end
      end
  end.

(** The context and the message are both ignored. *)
Definition Download (fuel : nat) (w : World) (track : Track) (fs : FS)
  : option ((string * option error) * FS * list Event) :=
  downloadAudio fuel w (ID track) fs.

End Methods.

End YoutubifyPlatform.

(** Modelled from the spec: [checkDownloadedFile] is defined in another
    file of the package; [Download] hands it the track identifier alone.  The
    spec keys a cache entry by identifier and by an extension derived
    from the media kind, and takes the existence of the file as the only
    sign of validity: the lookup tries the audio path, then the video
    path. *)
Definition checkDownloadedFile (fs : FS) (id : string)
  : string * option error :=
  let audio := filepath_Join ["downloads"; id +:+ ".mp3"] in
  let video := filepath_Join ["downloads"; id +:+ ".mp4"] in
  match fs !! audio, fs !! video with
  | Some _, _ => (audio, None)
  | None, Some _ => (video, None)
  | None, None => ("", Some (errors_New "file not found"))
  end.

(** What the proofs below ask of a cache lookup [chk], whichever it is. *)

(** A miss means the file of the track is not there. *)
Definition miss_means_absent (chk : FS -> string -> string * option error)
  : Prop :=
  forall (fs : FS) (track : Track),
    (chk fs (ID track)).2 ≠ None ->
    fs !! ShrutiAPIPlatform.filePath_of track = None.

(** After a miss, a file written at the path of the track is found, and
    the lookup answers with that path. *)
Definition finds_fresh_file (chk : FS -> string -> string * option error)
  : Prop :=
  forall (fs : FS) (track : Track) (content : list byte),
    (chk fs (ID track)).2 ≠ None ->
    content ≠ [] ->
    chk (<[ShrutiAPIPlatform.filePath_of track := content]> fs) (ID track)
    = (ShrutiAPIPlatform.filePath_of track, None).

(** ** Properties of traces *)

(** Every [EvBodyRead] comes right after an [EvCtxPoll]. *)
Fixpoint polled_before_each_read (tr : list Event) : bool :=
  match tr with
  | [] => true
  | EvCtxPoll :: EvBodyRead :: tr' => polled_before_each_read tr'
  | EvBodyRead :: _ => false
  | _ :: tr' => polled_before_each_read tr'
  end.

(** A world that differs from [w] in its context only. *)
Definition with_ctx (w : World) (c : nat -> option error) : World :=
  {| ctx_Err := c;
     mkdir_downloads := mkdir_downloads w;
     control_plane := control_plane w;
     new_request := new_request w;
     data_plane := data_plane w;
     create_err := create_err w;
     write_result := write_result w |}.

(** ** Sample worlds and tracks *)

Definition response_200 (body : list ReadEv) : Response :=
  {| StatusCode := 200; Status := "200 OK"; Body := body |}.

(** Everything works: token [T1], a body of three bytes in two reads. *)
Definition world_ok : World :=
  {| ctx_Err := fun _ => None;
     mkdir_downloads := None;
     control_plane := fun _ _ _ => RestyResp 200 "T1";
     new_request := fun _ => None;
     data_plane := fun _ _ =>
       HttpResp (response_200 [([x61; x62], None); ([x63], Some io_EOF)]);
     create_err := fun _ => None;
     write_result := fun _ => None |}.

Definition with_data_plane (w : World) (d : nat -> string -> HttpReply)
  : World :=
  {| ctx_Err := ctx_Err w;
     mkdir_downloads := mkdir_downloads w;
     control_plane := control_plane w;
     new_request := new_request w;
     data_plane := d;
     create_err := create_err w;
     write_result := write_result w |}.

Definition with_control_plane (w : World)
    (c : string -> string -> string -> RestyReply) : World :=
  {| ctx_Err := ctx_Err w;
     mkdir_downloads := mkdir_downloads w;
     control_plane := c;
     new_request := new_request w;
     data_plane := data_plane w;
     create_err := create_err w;
     write_result := write_result w |}.

(** The connection breaks after the first two bytes. *)
Definition world_broken_stream : World :=
  with_data_plane world_ok (fun _ _ =>
    HttpResp (response_200
      [([x61; x62], None); ([], Some (sys_Error "unexpected EOF"))])).

(** Status 200 and a body without a single byte. *)
Definition world_empty_body : World :=
  with_data_plane world_ok (fun _ _ => HttpResp (response_200 [])).

(** The context is cancelled from the start. *)
Definition world_cancelled : World :=
  with_ctx world_ok (fun _ => Some context_Canceled).

(** The context fires once the first chunk has been read. *)
Definition world_cancel_after_one : World :=
  with_ctx world_ok
    (fun k => match k with O => None | _ => Some context_DeadlineExceeded end).

(** The server redirects [n] times, then serves the file. *)
Definition world_redirects (n : nat) : World :=
  with_data_plane world_ok (fun hop url =>
    if (hop <? n)%nat then HttpRedirect (url +:+ "/r")
    else HttpResp (response_200 [([x61], Some io_EOF)])).

(** The server redirects for ever. *)
Definition world_redirect_loop : World :=
  with_data_plane world_ok (fun _ url => HttpRedirect url).

Definition audio_track : Track :=
  {| ID := "abc123"; Title := "a song"; Video := false |}.

Definition video_track : Track :=
  {| ID := "abc123"; Title := "a clip"; Video := true |}.

(** The control plane answers 200 with an empty token. *)
Definition world_empty_token : World :=
  with_control_plane world_ok (fun _ _ _ => RestyResp 200 "").

(** The control-plane request is cut short by the cancelled context. *)
Definition cancelled_request : error :=
  url_Error "Get" "https://shrutibots.site/download" context_Canceled.

Definition world_control_cancelled : World :=
  with_control_plane world_ok (fun _ _ _ => RestyErr cancelled_request).

(** ** What a body delivers *)

(** The bytes of a body: the chunks of its reads, up to and including
    the first read that comes with an error. *)
Fixpoint delivered (body : list ReadEv) : list byte :=
  match body with
  | [] => []
  | (chunk, Some _) :: _ => chunk
  | (chunk, None) :: rest => chunk ++ delivered rest
  end.

(** The error that ends a body: the one of its first failing read, or
    [io.EOF] past the last read. *)
Fixpoint ending (body : list ReadEv) : error :=
  match body with
  | [] => io_EOF
  | (_, Some e) :: _ => e
  | (_, None) :: rest => ending rest
  end.

Definition is_control (ev : Event) : bool :=
  match ev with EvControlGet _ _ _ => true | _ => false end.

(** The server answers 500 on the data plane. *)
Definition world_stream_500 : World :=
  with_data_plane world_ok (fun _ _ =>
    HttpResp {| StatusCode := 500; Status := "500 Internal Server Error";
                Body := [([x65], Some io_EOF)] |}).

(** The third read fails with the deadline of the context. *)
Definition world_deadline_in_read : World :=
  with_data_plane world_ok (fun _ _ =>
    HttpResp (response_200
      [([x61], None); ([x62], None);
       ([], Some (url_Error "Get" "stream" context_DeadlineExceeded))])).

(** ** Errors that [errors.Is] matches to a context error *)

(** Read off the shape of the error: [context.Canceled] and
    [context.DeadlineExceeded] themselves, the timeout error of the
    client, and whatever wraps one of them. *)
Fixpoint matches_context_error (e : error) : bool :=
  match e with
  | context_Canceled | context_DeadlineExceeded => true
  | http_timeoutError _ => true
  | fmt_Errorf_w _ cause => matches_context_error cause
  | url_Error _ _ cause => matches_context_error cause
  | _ => false
  end.

(** The control-plane request runs into the 7 s timeout of its own
    client; the context of the caller never fires. *)
Definition provider_timeout : error :=
  url_Error "Get" "https://shrutibots.site/download"
    (http_timeoutError
       "context deadline exceeded (Client.Timeout exceeded while awaiting headers)").

Definition world_provider_timeout : World :=
  with_control_plane world_ok (fun _ _ _ => RestyErr provider_timeout).

(** The deadline of the caller passes during the control-plane request. *)
Definition deadline_request : error :=
  url_Error "Get" "https://shrutibots.site/download" context_DeadlineExceeded.

Definition world_control_deadline : World :=
  with_control_plane world_ok (fun _ _ _ => RestyErr deadline_request).

(** The control plane cannot be reached. *)
Definition refused_request : error :=
  url_Error "Get" "https://shrutibots.site/download"
    (sys_Error "connection refused").

Definition world_control_refused : World :=
  with_control_plane world_ok (fun _ _ _ => RestyErr refused_request).

(** The context is already cancelled when the control-plane request is
    about to be made: nothing is sent. *)
Definition world_control_unsent : World :=
  with_control_plane world_ok (fun _ _ _ => RestyUnsent context_Canceled).

(** * Lemmas *)

(** ** Errors *)

Lemma is_cancellation_wrap (msg : string) (e : error) :
  is_cancellation (fmt_Errorf_w msg e) = is_cancellation e.
Proof. reflexivity. Qed.

Lemma is_cancellation_url_Error (op url : string) (e : error) :
  is_cancellation (url_Error op url e) = is_cancellation e.
Proof. reflexivity. Qed.

(** The test of the two request phases, read off the shape of the
    error. *)
Lemma is_cancellation_matches (e : error) :
  is_cancellation e = matches_context_error e.
Proof.
  induction e as [m|m c IH|m n|m x| | | |o u c IH|m|m]; try reflexivity.
  - rewrite is_cancellation_wrap. exact IH.
  - rewrite is_cancellation_url_Error. exact IH.
Qed.

(** ** Paths *)

Lemma components_plain (s : string) :
  has_slash s = false -> components s = [s].
Proof.
  induction s as [|c s IH]; simpl; [reflexivity|].
  intros H. apply orb_false_iff in H as [Hc Hs].
  rewrite Hc, (IH Hs). reflexivity.
Qed.

Lemma has_slash_append (a b : string) :
  has_slash (a +:+ b) = has_slash a || has_slash b.
Proof.
  induction a as [|c a IH]; simpl; [reflexivity|].
  rewrite IH. apply orb_assoc.
Qed.

(** Joining [downloads] and a plain file name just puts the separator
    between them. *)
Lemma filepath_Join_plain (s : string) :
  has_slash s = false -> s ≠ "" -> s ≠ "." -> s ≠ ".." ->
  filepath_Join ["downloads"; s] = "downloads/" +:+ s.
Proof.
  intros Hs He Hd Hdd.
  apply String.eqb_neq in He, Hd, Hdd.
  unfold filepath_Join. simpl List.filter. rewrite He. simpl negb. cbv iota.
  unfold filepath_Clean.
  change (String.concat "/" ["downloads"; s]) with ("downloads/" +:+ s).
  assert (Hc : components ("downloads/" +:+ s) = ["downloads"; s]).
  { cbv [String.append]. simpl. rewrite (components_plain s Hs). reflexivity. }
  rewrite Hc. cbn [fold_left]. unfold clean_step at 2. simpl.
  unfold clean_step. rewrite He, Hd, Hdd. reflexivity.
Qed.

Lemma length_append (a b : string) :
  String.length (a +:+ b) = (String.length a + String.length b)%nat.
Proof. induction a as [|c a IH]; simpl; [reflexivity | now rewrite IH]. Qed.

Lemma ext_name_not_dots (id ext : string) :
  (3 <= String.length ext)%nat ->
  id +:+ ext ≠ "" ∧ id +:+ ext ≠ "." ∧ id +:+ ext ≠ "..".
Proof.
  intros Hlen.
  assert (Hl : (3 <= String.length (id +:+ ext))%nat).
  { rewrite length_append. lia. }
  repeat split; intros Heq; rewrite Heq in Hl; simpl in Hl; lia.
Qed.

(** The path [ShrutiAPIPlatform.Download] computes for a track whose
    identifier is a plain file name. *)
Lemma filePath_of_plain (track : Track) :
  has_slash (ID track) = false ->
  ShrutiAPIPlatform.filePath_of track
  = "downloads/" +:+ ID track +:+ (if Video track then ".mp4" else ".mp3").
Proof.
  intros Hid. unfold ShrutiAPIPlatform.filePath_of, ShrutiAPIPlatform.ext_of.
  destruct (Video track).
  - destruct (ext_name_not_dots (ID track) ".mp4") as (? & ? & ?); [simpl; lia|].
    apply filepath_Join_plain; try assumption.
    rewrite has_slash_append, Hid. reflexivity.
  - destruct (ext_name_not_dots (ID track) ".mp3") as (? & ? & ?); [simpl; lia|].
    apply filepath_Join_plain; try assumption.
    rewrite has_slash_append, Hid. reflexivity.
Qed.

(** An identifier with separators or dots in it is cleaned away, which
    is why the lemma above asks for a plain name. *)
Example filePath_of_is_cleaned :
  ShrutiAPIPlatform.filePath_of {| ID := "../x"; Title := ""; Video := false |}
  = "x.mp3" ∧
  ShrutiAPIPlatform.filePath_of {| ID := "a//b"; Title := ""; Video := true |}
  = "downloads/a/b.mp4".
Proof. split; reflexivity. Qed.

(** ** Writing and the chunk loop *)

Section Streaming.

Variable w : World.
Variable filePath : string.

(** While the output file is open, the file system is the one before
    [os.Create] with the output file on top. *)
Lemma write_chunk_insert (k : nat) (chunk : list byte) (base : FS)
    (c : list byte) :
  exists d, (write_chunk w k filePath chunk (<[filePath := c]> base)).2
            = <[filePath := c ++ d]> base.
Proof.
  unfold write_chunk. destruct chunk as [|b chunk].
  - exists []. simpl. now rewrite app_nil_r.
  - destruct (write_result w k) as [[n e]|]; simpl;
      rewrite alter_insert_eq; eauto.
Qed.

Lemma stream_loop_insert (body : list ReadEv) :
  forall (k : nat) (base : FS) (c : list byte),
  exists c',
    (ShrutiAPIPlatform.stream_loop w filePath body k (<[filePath := c]> base)).1.2
    = <[filePath := c']> base.
Proof.
  induction body as [|[chunk rerr] rest IH]; intros k base c; simpl.
  - destruct (ctx_Err w k); simpl; eauto.
  - destruct (ctx_Err w k); simpl; [eauto|].
    destruct (write_chunk_insert k chunk base c) as [d Hd].
    destruct (write_chunk w k filePath chunk (<[filePath := c]> base))
      as [[werr|] fs'] eqn:Hw; simpl in Hd; subst fs'; simpl; [eauto|].
    destruct rerr as [err|].
    + destruct (error_eqb err io_EOF); simpl; eauto.
    + destruct (IH (S k) base (c ++ d)) as [c' Hc'].
      destruct (ShrutiAPIPlatform.stream_loop w filePath rest (S k)
                  (<[filePath := c ++ d]> base)) as [[r fs''] tr].
      simpl in *. eauto.
Qed.

Lemma io_Copy_insert (body : list ReadEv) :
  forall (k : nat) (base : FS) (c : list byte),
  exists c',
    (YoutubifyPlatform.io_Copy w filePath body k (<[filePath := c]> base)).1.2
    = <[filePath := c']> base.
Proof.
  induction body as [|[chunk rerr] rest IH]; intros k base c; simpl; [eauto|].
  destruct (write_chunk_insert k chunk base c) as [d Hd].
  destruct (write_chunk w k filePath chunk (<[filePath := c]> base))
    as [[werr|] fs'] eqn:Hw; simpl in Hd; subst fs'; simpl; [eauto|].
  destruct rerr as [err|]; simpl; [eauto|].
  destruct (IH (S k) base (c ++ d)) as [c' Hc'].
  destruct (YoutubifyPlatform.io_Copy w filePath rest (S k)
              (<[filePath := c ++ d]> base)) as [[r fs''] tr].
  simpl in *. eauto.
Qed.

(** The loop polls the context before every read. *)
Lemma stream_loop_polled (body : list ReadEv) :
  forall (k : nat) (fs : FS),
    polled_before_each_read
      (ShrutiAPIPlatform.stream_loop w filePath body k fs).2 = true.
Proof.
  induction body as [|[chunk rerr] rest IH]; intros k fs; simpl.
  - destruct (ctx_Err w k); reflexivity.
  - destruct (ctx_Err w k); [reflexivity|].
    destruct (write_chunk w k filePath chunk fs) as [[werr|] fs'];
      [reflexivity|].
    destruct rerr as [err|].
    + destruct (error_eqb err io_EOF); reflexivity.
    + specialize (IH (S k) fs').
      destruct (ShrutiAPIPlatform.stream_loop w filePath rest (S k) fs')
        as [[r fs''] tr]. exact IH.
Qed.

(** The loop sends no request of its own. *)
Lemma stream_loop_no_get (body : list ReadEv) :
  forall (k : nat) (fs : FS),
    count is_http_get
      (ShrutiAPIPlatform.stream_loop w filePath body k fs).2 = 0%nat.
Proof.
  induction body as [|[chunk rerr] rest IH]; intros k fs; simpl.
  - destruct (ctx_Err w k); reflexivity.
  - destruct (ctx_Err w k); [reflexivity|].
    destruct (write_chunk w k filePath chunk fs) as [[werr|] fs'];
      [reflexivity|].
    destruct rerr as [err|].
    + destruct (error_eqb err io_EOF); reflexivity.
    + specialize (IH (S k) fs').
      destruct (ShrutiAPIPlatform.stream_loop w filePath rest (S k) fs')
        as [[r fs''] tr]. exact IH.
Qed.

(** Started at round [j], with the context fired at round [k]: rounds
    [j], ..., [k - 1] read at most one chunk each, round [k] reads none and
    returns the error of the context. *)
Lemma stream_loop_fired (body : list ReadEv) (k : nat) (e : error) :
  ctx_Err w k = Some e ->
  forall (j : nat) (fs : FS), (j <= k)%nat ->
    let '(r, _, tr) := ShrutiAPIPlatform.stream_loop w filePath body j fs in
    (count is_read tr <= k - j)%nat ∧
    (count is_poll tr <= S (k - j))%nat ∧
    (count is_poll tr = S (k - j) -> r = Some e ∧ count is_read tr = (k - j)%nat).
Proof.
  intros Hk.
  assert (Hstop : forall (j : nat) (e' : error),
            (j <= k)%nat -> ctx_Err w j = Some e' ->
            (count is_read [EvCtxPoll] <= k - j)%nat ∧
            (count is_poll [EvCtxPoll] <= S (k - j))%nat ∧
            (count is_poll [EvCtxPoll] = S (k - j) ->
             Some e' = Some e ∧ count is_read [EvCtxPoll] = (k - j)%nat)).
  { intros j e' Hj Hc. unfold count; simpl. split; [lia|]. split; [lia|].
    intros Hp. assert (j = k) by lia. subst j. split; [congruence | lia]. }
  assert (Hlast : forall (j : nat) (r : option error),
            (j <= k)%nat -> ctx_Err w j = None ->
            (count is_read [EvCtxPoll; EvBodyRead] <= k - j)%nat ∧
            (count is_poll [EvCtxPoll; EvBodyRead] <= S (k - j))%nat ∧
            (count is_poll [EvCtxPoll; EvBodyRead] = S (k - j) ->
             r = Some e ∧ count is_read [EvCtxPoll; EvBodyRead] = (k - j)%nat)).
  { intros j r Hj Hc. assert (j ≠ k) by congruence.
    unfold count; simpl. split; [lia|]. split; [lia|]. intros Hp. lia. }
  induction body as [|[chunk rerr] rest IH]; intros j fs Hj; simpl.
  - destruct (ctx_Err w j) as [e'|] eqn:Hc; [now apply Hstop | now apply Hlast].
  - destruct (ctx_Err w j) as [e'|] eqn:Hc; [now apply Hstop|].
    destruct (write_chunk w j filePath chunk fs) as [[werr|] fs'];
      [now apply Hlast|].
    destruct rerr as [err|].
    { destruct (error_eqb err io_EOF); now apply Hlast. }
    assert (j ≠ k) by congruence.
    specialize (IH (S j) fs' ltac:(lia)).
    destruct (ShrutiAPIPlatform.stream_loop w filePath rest (S j) fs')
      as [[r fs''] tr].
    unfold count in *; simpl. destruct IH as (Hr & Hp & Hend).
    split; [lia|]. split; [lia|]. intros Hq.
    destruct Hend as [-> Hreads]; [lia|]. split; [reflexivity | lia].
Qed.

End Streaming.

(** ** Redirects *)

Lemma count_app (p : Event -> bool) (a b : list Event) :
  count p (a ++ b) = (count p a + count p b)%nat.
Proof. unfold count. now rewrite List.filter_app, length_app. Qed.

Lemma polled_after_gets (a b : list Event) :
  count is_http_get a = length a ->
  polled_before_each_read b = true ->
  polled_before_each_read (a ++ b) = true.
Proof.
  intros Ha Hb. induction a as [|ev a IH]; [exact Hb|].
  unfold count in *. simpl in Ha.
  pose proof (List.filter_length_le is_http_get a) as Hle.
  destruct ev; simpl in Ha; try lia.
  simpl. apply IH. lia.
Qed.

Section Redirects.

Variable c : http_Client.
Variable too_many : error.
(** The policy of both clients, up to the text of the error. *)
Hypothesis policy : forall req via,
  CheckRedirect c req via
  = if (10 <=? Z.of_nat (length via)) then Some too_many else None.

Variable server : nat -> string -> HttpReply.

(** With fewer than ten requests behind it and fuel for the rest, the
    client returns, after at most ten requests in all. *)
Lemma http_Client_do_returns (fuel : nat) :
  forall (req : string) (reqs : list string),
    (length reqs < 10)%nat -> (10 - length reqs <= fuel)%nat ->
    exists res tr,
      http_Client_do fuel c server req reqs = Some (res, tr) ∧
      count is_http_get tr = length tr ∧
      (length tr <= 10 - length reqs)%nat.
Proof.
  induction fuel as [|fuel IH]; intros req reqs Hlt Hfuel; [lia|].
  simpl. destruct (server (length reqs) req) as [e|loc|r].
  - eexists _, _. split; [reflexivity|]. unfold count; simpl. lia.
  - rewrite policy, length_app. simpl length.
    destruct (Z.leb_spec 10 (Z.of_nat (length reqs + 1))).
    + eexists _, _. split; [reflexivity|]. unfold count; simpl. lia.
    + destruct (IH loc (reqs ++ [req])) as (res & tr & Hdo & Hget & Hlen).
      { rewrite length_app. simpl. lia. }
      { rewrite length_app. simpl. lia. }
      rewrite Hdo. eexists _, _. split; [reflexivity|].
      rewrite length_app in Hlen. simpl in Hlen.
      unfold count in *; simpl. lia.
  - eexists _, _. split; [reflexivity|]. unfold count; simpl. lia.
Qed.

(** If the server answers the first ten requests with a redirect, the
    tenth redirect is refused. *)
Lemma http_Client_do_redirected (fuel : nat) :
  (forall hop url, (hop < 10)%nat -> exists loc, server hop url = HttpRedirect loc) ->
  forall (req : string) (reqs : list string),
    (length reqs < 10)%nat -> (10 - length reqs <= fuel)%nat ->
    exists loc tr,
      http_Client_do fuel c server req reqs
      = Some (inr (url_Error "Get" loc too_many), tr) ∧
      length tr = (10 - length reqs)%nat.
Proof.
  intros Hred.
  induction fuel as [|fuel IH]; intros req reqs Hlt Hfuel; [lia|].
  simpl. destruct (Hred (length reqs) req Hlt) as [loc ->].
  rewrite policy, length_app. simpl length.
  destruct (Z.leb_spec 10 (Z.of_nat (length reqs + 1))).
  - eexists _, _. split; [reflexivity|]. simpl. lia.
  - destruct (IH loc (reqs ++ [req])) as (loc' & tr & Hdo & Hlen).
    { rewrite length_app. simpl. lia. }
    { rewrite length_app. simpl. lia. }
    rewrite Hdo. eexists _, _. split; [reflexivity|].
    rewrite length_app in Hlen. simpl in *. lia.
Qed.

End Redirects.

(** ** Shape of a run of [downloadFile] and of [Download] *)

Section ShrutiRuns.

Import ShrutiAPIPlatform.

Variable chk : FS -> string -> string * option error.

(** [downloadFile] changes the file system only at [filePath], and only
    when it got as far as creating the file. *)
Lemma downloadFile_fs (fuel : nat) (w : World) (s : t)
    (videoID mediaType token filePath : string) (fs fs' : FS)
    (r : option error) (tr : list Event) :
  downloadFile fuel w s videoID mediaType token filePath fs = Some (r, fs', tr) ->
  fs' = fs ∧ r ≠ None ∨ exists content, fs' = <[filePath := content]> fs.
Proof.
  unfold downloadFile.
  destruct (new_request w _); [intros [= <- <- <-]; left; done|].
  destruct (http_Client_do _ _ _ _ _) as [[[resp|err] tr0]|]; [| |done].
  - destruct (negb _); [intros [= <- <- <-]; left; done|].
    destruct (create_err w filePath); [intros [= <- <- <-]; left; done|].
    destruct (stream_loop_insert w filePath (Body resp) 0 fs []) as [c' Hc'].
    destruct (stream_loop w filePath (Body resp) 0 (<[filePath := []]> fs))
      as [[r0 fs0] tr1]. simpl in Hc'. intros [= <- <- <-]. right. eauto.
  - destruct (is_cancellation err); intros [= <- <- <-]; left; done.
Qed.

(** A download that did not come from the cache and succeeded returns
    the path computed from the track, and left a non-empty file there,
    on top of the file system it started from. *)
Lemma Download_fresh_success (fuel : nat) (w : World) (s : t) (track : Track)
    (fs fs' : FS) (path : string) (tr : list Event) :
  (chk fs (ID track)).2 ≠ None ->
  Download chk fuel w s track fs = Some ((path, None), fs', tr) ->
  path = filePath_of track ∧
  exists content, content ≠ [] ∧ fs' = <[filePath_of track := content]> fs.
Proof.
  intros Hmiss. unfold Download.
  destruct (chk fs (ID track)) as [p0 [e0|]]; [|done].
  destruct (ensureDownloadsDir w); [done|].
  destruct (getDownloadToken w s _ _) as [[token [terr|]] tr0]; [done|].
  destruct (downloadFile _ _ _ _ _ _ _ _) as [[[[derr|] fs1] tr1]|] eqn:Hdl;
    [done| |done].
  apply downloadFile_fs in Hdl as [[_ Hr]|[content ->]]; [done|].
  unfold os_Stat. rewrite lookup_insert_eq. simpl.
  destruct (Z.eqb_spec (Z.of_nat (length content)) 0); [done|].
  intros [= <- <- <-]. split; [done|]. exists content. split; [|done].
  intros ->. simpl in *. lia.
Qed.

(** A failed download leaves no file at the path of the track, as long
    as a cache miss means that there was none to begin with. *)
Lemma Download_failure_leaves_no_file (fuel : nat) (w : World) (s : t)
    (track : Track) (fs fs' : FS) (path : string) (e : error)
    (tr : list Event) :
  miss_means_absent chk ->
  Download chk fuel w s track fs = Some ((path, Some e), fs', tr) ->
  fs' !! filePath_of track = None.
Proof.
  intros Habsent. unfold Download.
  destruct (chk fs (ID track)) as [p0 [e0|]] eqn:Hchk; [|done].
  assert (Hnone : fs !! filePath_of track = None).
  { apply Habsent. now rewrite Hchk. }
  destruct (ensureDownloadsDir w); [now intros [= <- <- <- <-]|].
  destruct (getDownloadToken w s _ _) as [[token [terr|]] tr0];
    [now intros [= <- <- <- <-]|].
  destruct (downloadFile _ _ _ _ _ _ _ _) as [[[[derr|] fs1] tr1]|];
    [| |done].
  - intros [= <- <- <- <-]. apply lookup_delete_eq.
  - destruct (os_Stat fs1 _) as [size|].
    + destruct (size =? 0); [|done].
      intros [= <- <- <- <-]. apply lookup_delete_eq.
    + intros [= <- <- <- <-]. apply lookup_delete_eq.
Qed.

End ShrutiRuns.

(** The modelled lookup has both properties. *)
Lemma checkDownloadedFile_miss_means_absent :
  miss_means_absent checkDownloadedFile.
Proof.
  intros fs track. unfold checkDownloadedFile, ShrutiAPIPlatform.filePath_of,
    ShrutiAPIPlatform.ext_of.
  destruct (fs !! filepath_Join ["downloads"; ID track +:+ ".mp3"]) eqn:Ha;
    [done|].
  destruct (fs !! filepath_Join ["downloads"; ID track +:+ ".mp4"]) eqn:Hv;
    [done|].
  intros _. now destruct (Video track).
Qed.

Lemma checkDownloadedFile_finds_fresh_file :
  finds_fresh_file checkDownloadedFile.
Proof.
  intros fs track content.
  unfold checkDownloadedFile, ShrutiAPIPlatform.filePath_of,
    ShrutiAPIPlatform.ext_of.
  destruct (Video track);
    generalize (filepath_Join ["downloads"; ID track +:+ ".mp3"]) as audio;
    generalize (filepath_Join ["downloads"; ID track +:+ ".mp4"]) as video;
    intros video audio;
    (destruct (fs !! audio) eqn:Ha; [done|]);
    (destruct (fs !! video) eqn:Hv; [done|]); intros _ _.
  - destruct (decide (video = audio)) as [Heq|Hne].
    + rewrite Heq, lookup_insert_eq. reflexivity.
    + rewrite lookup_insert_ne, Ha, lookup_insert_eq by done. reflexivity.
  - rewrite lookup_insert_eq. reflexivity.
Qed.

(** ** Traces of the request phase, and runs of [downloadAudio] *)

Lemma http_Client_do_trace (c : http_Client)
    (server : nat -> string -> HttpReply) (fuel : nat) :
  forall (req : string) (reqs : list string) (res : Result) (tr : list Event),
    http_Client_do fuel c server req reqs = Some (res, tr) ->
    count is_http_get tr = length tr.
Proof.
  induction fuel as [|fuel IH]; intros req reqs res tr; simpl; [done|].
  destruct (server (length reqs) req) as [e|loc|r].
  - now intros [= <- <-].
  - destruct (CheckRedirect c loc (reqs ++ [req])); [now intros [= <- <-]|].
    destruct (http_Client_do fuel c server loc (reqs ++ [req]))
      as [[res' tr']|] eqn:Hdo; [|done].
    intros [= <- <-]. apply IH in Hdo. unfold count in *. simpl. lia.
  - now intros [= <- <-].
Qed.

Lemma gets_only (tr : list Event) :
  count is_http_get tr = length tr ->
  count is_read tr = 0%nat ∧ count is_poll tr = 0%nat.
Proof.
  unfold count. induction tr as [|ev tr IH]; [done|].
  pose proof (List.filter_length_le is_http_get tr) as Hle.
  destruct ev; simpl; intros Hlen; lia.
Qed.

Lemma io_Copy_with_ctx (w : World) (c : nat -> option error) (path : string)
    (body : list ReadEv) :
  forall (k : nat) (fs : FS),
    YoutubifyPlatform.io_Copy (with_ctx w c) path body k fs
    = YoutubifyPlatform.io_Copy w path body k fs.
Proof.
  induction body as [|[chunk rerr] rest IH]; intros k fs; simpl; [done|].
  change (write_chunk (with_ctx w c) k path chunk fs)
    with (write_chunk w k path chunk fs).
  destruct (write_chunk w k path chunk fs) as [[ew|] fs']; [done|].
  destruct rerr; [done|]. now rewrite IH.
Qed.

(** [downloadAudio] never looks at the context. *)
Lemma downloadAudio_with_ctx (key : string) (fuel : nat) (w : World)
    (c : nat -> option error) (videoID : string) (fs : FS) :
  YoutubifyPlatform.downloadAudio key fuel (with_ctx w c) videoID fs
  = YoutubifyPlatform.downloadAudio key fuel w videoID fs.
Proof.
  unfold YoutubifyPlatform.downloadAudio. simpl.
  destruct (os_Stat fs _); [done|].
  destruct (mkdir_downloads w); [done|].
  destruct (new_request w _); [done|].
  destruct (http_Client_do _ _ _ _ _) as [[[resp|err] tr]|]; [|done..].
  destruct (negb _); [done|].
  destruct (create_err w _); [done|].
  now rewrite io_Copy_with_ctx.
Qed.

(** A successful [downloadAudio] returns the mp3 path of the identifier,
    and a file is there. *)
Lemma downloadAudio_success (key : string) (fuel : nat) (w : World)
    (videoID : string) (fs fs' : FS) (path : string) (tr : list Event) :
  YoutubifyPlatform.downloadAudio key fuel w videoID fs
  = Some ((path, None), fs', tr) ->
  path = "downloads/" +:+ videoID +:+ ".mp3" ∧ is_Some (fs' !! path).
Proof.
  unfold YoutubifyPlatform.downloadAudio.
  set (filepath := "downloads/" +:+ videoID +:+ ".mp3").
  unfold os_Stat. destruct (fs !! filepath) as [old|] eqn:Hold; simpl.
  { intros [= <- <- <-]. eauto. }
  destruct (mkdir_downloads w); [done|].
  destruct (new_request w _); [done|].
  destruct (http_Client_do _ _ _ _ _) as [[[resp|err] tr0]|]; [|done..].
  destruct (negb _); [done|].
  destruct (create_err w _); [done|].
  destruct (io_Copy_insert w filepath (Body resp) 0 fs []) as [c' Hc'].
  destruct (YoutubifyPlatform.io_Copy w filepath (Body resp) 0
              (<[filepath := []]> fs)) as [[r0 fs0] tr1].
  simpl in Hc'. subst fs0. destruct r0; [done|].
  intros [= <- <- <-]. split; [done|]. rewrite lookup_insert_eq. eauto.
Qed.

(** * The claims *)

(** C1, at the input where Youtubify breaks it.  The body fails after
    two bytes: [Download] returns the error and leaves the two bytes at
    the cache path; the next call finds them and reports success without
    a request. *)
Theorem C1_youtubify_keeps_partial_file :
  let partial : FS := {["downloads/abc123.mp3" := [x61; x62]]} in
  (exists tr,
     YoutubifyPlatform.Download "key" 1 world_broken_stream audio_track ∅
     = Some (("", Some (sys_Error "unexpected EOF")), partial, tr)) ∧
  YoutubifyPlatform.Download "key" 1 world_ok audio_track partial
  = Some (("downloads/abc123.mp3", None), partial, []).
Proof.
  split; [eexists|]; vm_compute; reflexivity.
Qed.

(** C2 (as amended).  In the streaming phase of ShrutiAPI's [Download],
    that is in every run of [downloadFile], each chunk read comes right
    after a poll of the context; if the context has fired by round [k],
    at most [k] chunks are read, and a run that reaches round [k] returns
    the error of the context without reading again.  Youtubify's
    [Download] does not depend on the context at all. *)
Theorem C2_shruti_polls_context_each_round
    (fuel : nat) (w : World) (s : ShrutiAPIPlatform.t)
    (videoID mediaType token filePath : string) (fs fs' : FS)
    (r : option error) (tr : list Event) :
  ShrutiAPIPlatform.downloadFile fuel w s videoID mediaType token filePath fs
  = Some (r, fs', tr) ->
  polled_before_each_read tr = true ∧
  (forall k e, ctx_Err w k = Some e ->
     (count is_read tr <= k)%nat ∧
     (count is_poll tr = S k -> r = Some e ∧ count is_read tr = k)) ∧
  (forall key c track fs0,
     YoutubifyPlatform.Download key fuel (with_ctx w c) track fs0
     = YoutubifyPlatform.Download key fuel w track fs0).
Proof.
  intros Hrun.
  assert (Hquiet : forall tr0 : list Event,
            count is_http_get tr0 = length tr0 ->
            polled_before_each_read tr0 = true ∧
            (forall k e, ctx_Err w k = Some e ->
               (count is_read tr0 <= k)%nat ∧
               (count is_poll tr0 = S k ->
                r = Some e ∧ count is_read tr0 = k))).
  { intros tr0 Hgets. split.
    - rewrite <- (app_nil_r tr0). now apply polled_after_gets.
    - intros k e _. destruct (gets_only tr0 Hgets) as [-> ->].
      split; [lia | discriminate]. }
  split; [|split]; [| |intros; apply downloadAudio_with_ctx].
  all: revert Hrun; unfold ShrutiAPIPlatform.downloadFile.
  all: destruct (new_request w _);
    [intros [= <- <- <-]; now apply Hquiet|].
  all: destruct (http_Client_do _ _ _ _ _) as [[[resp|err] tr0]|] eqn:Hdo;
    [| |done]; apply http_Client_do_trace in Hdo.
  all: try (destruct (is_cancellation err); intros [= <- <- <-];
            now apply Hquiet).
  all: destruct (negb _); [intros [= <- <- <-]; now apply Hquiet|].
  all: destruct (create_err w filePath);
    [intros [= <- <- <-]; now apply Hquiet|].
  - pose proof (stream_loop_polled w filePath (Body resp) 0
                  (<[filePath := []]> fs)) as Hpolled.
    destruct (ShrutiAPIPlatform.stream_loop w filePath (Body resp) 0
                (<[filePath := []]> fs)) as [[r0 fs0] tr1].
    intros [= <- <- <-]. now apply polled_after_gets.
  - intros Hrun k e Hk.
    pose proof (stream_loop_fired w filePath (Body resp) k e Hk 0
                  (<[filePath := []]> fs) ltac:(lia)) as Hfired.
    destruct (ShrutiAPIPlatform.stream_loop w filePath (Body resp) 0
                (<[filePath := []]> fs)) as [[r0 fs0] tr1].
    injection Hrun as <- <- <-.
    destruct (gets_only tr0 Hdo) as [Hr Hp].
    rewrite !count_app, Hr, Hp, Nat.sub_0_r in *.
    destruct Hfired as (Hreads & _ & Hlast). now split.
Qed.

Lemma C2_witness :
  let partial : FS := {["downloads/abc123.mp3" := [x61; x62]]} in
  let tr := [EvHttpGet "https://shrutibots.site/stream/abc123?type=audio&token=T1";
             EvCtxPoll; EvBodyRead; EvCtxPoll] in
  ShrutiAPIPlatform.downloadFile 1 world_cancel_after_one
    ShrutiAPIPlatform.registered "abc123" "audio" "T1"
    "downloads/abc123.mp3" ∅
  = Some (Some context_DeadlineExceeded, partial, tr) ∧
  polled_before_each_read tr = true ∧
  (count is_read tr <= 1)%nat ∧
  (count is_poll tr = 2%nat ->
   Some context_DeadlineExceeded = Some context_DeadlineExceeded ∧
   count is_read tr = 1%nat).
Proof.
  intros partial tr.
  assert (Hrun : ShrutiAPIPlatform.downloadFile 1 world_cancel_after_one
                   ShrutiAPIPlatform.registered "abc123" "audio" "T1"
                   "downloads/abc123.mp3" ∅
                 = Some (Some context_DeadlineExceeded, partial, tr))
    by (vm_compute; reflexivity).
  split; [exact Hrun|].
  destruct (C2_shruti_polls_context_each_round 1 world_cancel_after_one
              ShrutiAPIPlatform.registered "abc123" "audio" "T1"
              "downloads/abc123.mp3" ∅ partial
              (Some context_DeadlineExceeded) tr Hrun)
    as (Hpolled & Hfired & _).
  split; [exact Hpolled|].
  exact (Hfired 1%nat context_DeadlineExceeded eq_refl).
Defined.

(** C2 as stated fails for Youtubify: with the context cancelled before
    the call, its [Download] still reads the whole body, never polls, and
    reports success. *)
Lemma C2_counterexample :
  ctx_Err world_cancelled 0 = Some context_Canceled ∧
  exists fs' tr,
    YoutubifyPlatform.Download "key" 1 world_cancelled audio_track ∅
    = Some (("downloads/abc123.mp3", None), fs', tr) ∧
    count is_read tr = 2%nat ∧ count is_poll tr = 0%nat.
Proof.
  split; [reflexivity|]. eexists _, _.
  split; [vm_compute; reflexivity|]. split; reflexivity.
Qed.

(** C3.  After a successful [Download], a second one for the same
    identifier, on the file system the first one left, returns the same
    path, leaves the file system alone and produces no event at all, so
    no request either, whatever the world; for ShrutiAPI this holds for
    every cache lookup that finds a freshly written file. *)
Theorem C3_second_download_is_served_from_cache
    (chk : FS -> string -> string * option error) (key : string)
    (fuel1 fuel2 : nat) (w1 w2 : World) (s : ShrutiAPIPlatform.t)
    (t1 t2 : Track) (fs fs1 : FS) (path : string) (tr1 : list Event) :
  finds_fresh_file chk ->
  ID t2 = ID t1 ->
  (ShrutiAPIPlatform.Download chk fuel1 w1 s t1 fs
   = Some ((path, None), fs1, tr1) ->
   ShrutiAPIPlatform.Download chk fuel2 w2 s t2 fs1
   = Some ((path, None), fs1, [])) ∧
  (YoutubifyPlatform.Download key fuel1 w1 t1 fs
   = Some ((path, None), fs1, tr1) ->
   YoutubifyPlatform.Download key fuel2 w2 t2 fs1
   = Some ((path, None), fs1, [])).
Proof.
  intros Hfresh Hid. split.
  - intros Hrun.
    assert (Hhit : chk fs1 (ID t1) = (path, None)).
    { destruct (chk fs (ID t1)) as [p0 [e0|]] eqn:Hchk.
      - apply (Download_fresh_success chk) in Hrun
          as [-> (content & Hcontent & ->)]; [|now rewrite Hchk].
        apply Hfresh; [now rewrite Hchk | exact Hcontent].
      - unfold ShrutiAPIPlatform.Download in Hrun. rewrite Hchk in Hrun.
        now injection Hrun as <- <- <-. }
    unfold ShrutiAPIPlatform.Download. now rewrite Hid, Hhit.
  - intros Hrun. apply downloadAudio_success in Hrun as [-> [old Hold]].
    unfold YoutubifyPlatform.Download, YoutubifyPlatform.downloadAudio.
    rewrite Hid. unfold os_Stat. now rewrite Hold.
Qed.

Lemma C3_witness :
  let fs1 : FS := {["downloads/abc123.mp3" := [x61; x62; x63]]} in
  ShrutiAPIPlatform.Download checkDownloadedFile 0 world_redirect_loop
    ShrutiAPIPlatform.registered video_track fs1
  = Some (("downloads/abc123.mp3", None), fs1, []) ∧
  YoutubifyPlatform.Download "key" 0 world_redirect_loop video_track fs1
  = Some (("downloads/abc123.mp3", None), fs1, []).
Proof.
  intros fs1.
  destruct (C3_second_download_is_served_from_cache checkDownloadedFile "key"
              1 0 world_ok world_redirect_loop ShrutiAPIPlatform.registered
              audio_track video_track ∅ fs1 "downloads/abc123.mp3"
              [EvControlGet "https://shrutibots.site/download" "abc123" "audio";
               EvHttpGet "https://shrutibots.site/stream/abc123?type=audio&token=T1";
               EvCtxPoll; EvBodyRead; EvCtxPoll; EvBodyRead]
              checkDownloadedFile_finds_fresh_file eq_refl) as [Hs _].
  destruct (C3_second_download_is_served_from_cache checkDownloadedFile "key"
              1 0 world_ok world_redirect_loop ShrutiAPIPlatform.registered
              audio_track video_track ∅ fs1 "downloads/abc123.mp3"
              [EvHttpGet "https://youtubify.me/download/audio?video_id=abc123&mode=download&no_redirect=1&api_key=key";
               EvBodyRead; EvBodyRead]
              checkDownloadedFile_finds_fresh_file eq_refl) as [_ Hy].
  split; [apply Hs | apply Hy]; vm_compute; reflexivity.
Defined.

(** C4.  On a cache miss, once the directory is there: if the token
    endpoint answers with a status outside 200..299 or with an empty
    token, [Download] fails with the token error, the only request made
    is the control-plane one, and the file system is left as it was. *)
Theorem C4_token_failure_stops_download
    (chk : FS -> string -> string * option error)
    (fuel : nat) (w : World) (s : ShrutiAPIPlatform.t) (track : Track)
    (fs : FS) (status : Z) (token : string) :
  let endpoint := ShrutiAPIPlatform.apiURL s +:+ "/download" in
  let mediaType := ShrutiAPIPlatform.mediaType_of track in
  (chk fs (ID track)).2 ≠ None ->
  ensureDownloadsDir w = None ->
  control_plane w endpoint (ID track) mediaType = RestyResp status token ->
  ShrutiAPIPlatform.IsSuccess status = false ∨ token = "" ->
  exists cause,
    ShrutiAPIPlatform.Download chk fuel w s track fs
    = Some (("", Some (fmt_Errorf_w "failed to get download token" cause)),
            fs, [EvControlGet endpoint (ID track) mediaType]) ∧
    (cause = fmt_Errorf_d "api returned status" status ∨
     cause = errors_New "empty download token received").
Proof.
  intros endpoint mediaType Hmiss Hdir Hreply Hbad.
  unfold ShrutiAPIPlatform.Download.
  destruct (chk fs (ID track)) as [p0 [e0|]]; [|done].
  rewrite Hdir. unfold ShrutiAPIPlatform.getDownloadToken.
  fold endpoint mediaType. rewrite Hreply.
  destruct (ShrutiAPIPlatform.IsError status).
  - eexists. split; [reflexivity|]. now left.
  - assert (Hempty : (if ShrutiAPIPlatform.IsSuccess status then token else "")
                     = "").
    { destruct Hbad as [-> | ->]; [reflexivity|].
      now destruct (ShrutiAPIPlatform.IsSuccess status). }
    rewrite Hempty. simpl. eexists. split; [reflexivity|]. now right.
Qed.

Lemma C4_witness :
  exists cause,
    ShrutiAPIPlatform.Download checkDownloadedFile 1 world_empty_token
      ShrutiAPIPlatform.registered audio_track ∅
    = Some (("", Some (fmt_Errorf_w "failed to get download token" cause)),
            ∅, [EvControlGet "https://shrutibots.site/download" "abc123"
                  "audio"]) ∧
    (cause = fmt_Errorf_d "api returned status" 200 ∨
     cause = errors_New "empty download token received").
Proof.
  apply (C4_token_failure_stops_download checkDownloadedFile 1
           world_empty_token ShrutiAPIPlatform.registered audio_track ∅
           200 "").
  - vm_compute. discriminate.
  - reflexivity.
  - reflexivity.
  - right. reflexivity.
Defined.

(** C5, at the input where Youtubify breaks it.  The server answers 200
    with an empty body: [Download] returns the path, and the file there
    has size zero. *)
Theorem C5_youtubify_returns_empty_file :
  let empty : FS := {["downloads/abc123.mp3" := []]} in
  (exists tr,
     YoutubifyPlatform.Download "key" 1 world_empty_body audio_track ∅
     = Some (("downloads/abc123.mp3", None), empty, tr)) ∧
  os_Stat empty "downloads/abc123.mp3" = Some 0.
Proof.
  split; [eexists|]; vm_compute; reflexivity.
Qed.

(** C6 (as amended).  A download by ShrutiAPI that did not come from the
    cache and succeeded returns [downloads/{id}.mp3] for an audio track
    and [downloads/{id}.mp4] for a video track, for an identifier that is
    a plain file name.  A successful download by Youtubify returns
    [downloads/{id}.mp3] whatever the kind of the track. *)
Theorem C6_path_of_successful_download
    (chk : FS -> string -> string * option error) (key : string)
    (fuel : nat) (w : World) (s : ShrutiAPIPlatform.t) (track : Track)
    (fs fs' : FS) (path : string) (tr : list Event) :
  (has_slash (ID track) = false ->
   (chk fs (ID track)).2 ≠ None ->
   ShrutiAPIPlatform.Download chk fuel w s track fs
   = Some ((path, None), fs', tr) ->
   path = "downloads/" +:+ ID track
            +:+ (if Video track then ".mp4" else ".mp3")) ∧
  (YoutubifyPlatform.Download key fuel w track fs
   = Some ((path, None), fs', tr) ->
   path = "downloads/" +:+ ID track +:+ ".mp3").
Proof.
  split.
  - intros Hplain Hmiss Hrun.
    apply (Download_fresh_success chk) in Hrun as [-> _]; [|exact Hmiss].
    now apply filePath_of_plain.
  - intros Hrun. now apply downloadAudio_success in Hrun as [-> _].
Qed.

Lemma C6_witness :
  exists path fs' tr,
    ShrutiAPIPlatform.Download checkDownloadedFile 1 world_ok
      ShrutiAPIPlatform.registered video_track ∅
    = Some ((path, None), fs', tr) ∧
    path = "downloads/abc123.mp4".
Proof.
  eexists _, _, _. split; [vm_compute; reflexivity|].
  refine (proj1 (C6_path_of_successful_download checkDownloadedFile "key" 1
                   world_ok ShrutiAPIPlatform.registered video_track ∅
                   _ _ _) eq_refl _ _).
  - vm_compute. discriminate.
  - vm_compute. reflexivity.
Defined.

(** C6 as stated fails for Youtubify: a successful download of a video
    track returns the mp3 path. *)
Lemma C6_counterexample :
  Video video_track = true ∧
  (exists fs' tr,
     YoutubifyPlatform.Download "key" 1 world_ok video_track ∅
     = Some (("downloads/abc123.mp3", None), fs', tr)) ∧
  "downloads/abc123.mp3" ≠ "downloads/" +:+ ID video_track +:+ ".mp4".
Proof.
  split; [reflexivity|]. split; [|discriminate].
  eexists _, _. vm_compute. reflexivity.
Qed.

(** C7.  [downloadFile] always returns, having sent at most ten requests
    to the data plane (the first one and at most nine redirects followed);
    when the server answers each of the first ten requests with a
    redirect, as it does in any chain longer than the cap, the result is
    the error [too many redirects], wrapped by [Client.Do] and by the
    request phase. *)
Theorem C7_redirects_are_capped
    (fuel : nat) (w : World) (s : ShrutiAPIPlatform.t)
    (videoID mediaType token filePath : string) (fs : FS) :
  (10 <= fuel)%nat ->
  (exists r fs' tr,
     ShrutiAPIPlatform.downloadFile fuel w s videoID mediaType token
       filePath fs = Some (r, fs', tr) ∧
     (count is_http_get tr <= 10)%nat) ∧
  (new_request w (ShrutiAPIPlatform.streamURL s videoID mediaType token)
   = None ->
   (forall hop url, (hop < 10)%nat ->
      exists loc, data_plane w hop url = HttpRedirect loc) ->
   exists loc tr,
     ShrutiAPIPlatform.downloadFile fuel w s videoID mediaType token
       filePath fs
     = Some (Some (fmt_Errorf_w "request failed"
                     (url_Error "Get" loc (errors_New "too many redirects"))),
             fs, tr) ∧
     count is_http_get tr = 10%nat).
Proof.
  intros Hfuel.
  set (url := ShrutiAPIPlatform.streamURL s videoID mediaType token).
  assert (Hpolicy : forall req via,
            CheckRedirect (ShrutiAPIPlatform.client mediaType) req via
            = if (10 <=? Z.of_nat (length via))
              then Some (errors_New "too many redirects") else None)
    by reflexivity.
  destruct (http_Client_do_returns (ShrutiAPIPlatform.client mediaType) _
              Hpolicy (data_plane w) fuel url [])
    as (res & tr & Hdo & Hget & Hlen); [simpl; lia..|].
  simpl in Hlen. split.
  - unfold ShrutiAPIPlatform.downloadFile. fold url.
    destruct (new_request w url).
    { eexists _, _, _. split; [reflexivity|]. unfold count; simpl. lia. }
    rewrite Hdo. destruct res as [resp|err].
    + destruct (negb _).
      { eexists _, _, _. split; [reflexivity|]. lia. }
      destruct (create_err w filePath).
      { eexists _, _, _. split; [reflexivity|]. lia. }
      pose proof (stream_loop_no_get w filePath (Body resp) 0
                    (<[filePath := []]> fs)) as Hloop.
      destruct (ShrutiAPIPlatform.stream_loop w filePath (Body resp) 0
                  (<[filePath := []]> fs)) as [[r fs'] tr'].
      simpl in Hloop. eexists _, _, _. split; [reflexivity|].
      rewrite count_app. lia.
    + destruct (is_cancellation err);
        eexists _, _, _; (split; [reflexivity|]); lia.
  - intros Hreq Hred.
    destruct (http_Client_do_redirected (ShrutiAPIPlatform.client mediaType) _
                Hpolicy (data_plane w) fuel Hred url [])
      as (loc & tr2 & Hdo2 & Hlen2); [simpl; lia..|].
    rewrite Hdo in Hdo2. injection Hdo2 as -> ->.
    unfold ShrutiAPIPlatform.downloadFile. fold url.
    rewrite Hreq, Hdo. simpl. eexists _, _. split; [reflexivity|].
    simpl in Hlen2. lia.
Qed.

Lemma C7_witness :
  exists loc tr,
    ShrutiAPIPlatform.downloadFile 10 world_redirect_loop
      ShrutiAPIPlatform.registered "abc123" "audio" "T1"
      "downloads/abc123.mp3" ∅
    = Some (Some (fmt_Errorf_w "request failed"
                    (url_Error "Get" loc (errors_New "too many redirects"))),
            ∅, tr) ∧
    count is_http_get tr = 10%nat.
Proof.
  apply (C7_redirects_are_capped 10 world_redirect_loop
           ShrutiAPIPlatform.registered "abc123" "audio" "T1"
           "downloads/abc123.mp3" ∅).
  - lia.
  - reflexivity.
  - intros hop url _. eexists. reflexivity.
Defined.

(** Where the cap bites: nine redirects are followed, the tenth is
    refused. *)
Example nine_redirects_are_followed :
  exists tr,
    ShrutiAPIPlatform.downloadFile 10 (world_redirects 9)
      ShrutiAPIPlatform.registered "abc123" "audio" "T1"
      "downloads/abc123.mp3" ∅
    = Some (None, {["downloads/abc123.mp3" := [x61]]}, tr) ∧
    count is_http_get tr = 10%nat.
Proof. eexists. split; [vm_compute; reflexivity | reflexivity]. Qed.

Example ten_redirects_are_refused :
  exists loc tr,
    ShrutiAPIPlatform.downloadFile 11 (world_redirects 10)
      ShrutiAPIPlatform.registered "abc123" "audio" "T1"
      "downloads/abc123.mp3" ∅
    = Some (Some (fmt_Errorf_w "request failed"
                    (url_Error "Get" loc (errors_New "too many redirects"))),
            ∅, tr) ∧
    count is_http_get tr = 10%nat.
Proof. eexists _, _. split; [vm_compute; reflexivity | reflexivity]. Qed.

(** C8.  Both providers are download-only: [IsValid] is false for every
    query, and [GetTracks] returns no track and an error that says so. *)
Theorem C8_download_only_providers
    (s : ShrutiAPIPlatform.t) (query : string) (video : bool) :
  ShrutiAPIPlatform.IsValid s query = false ∧
  ShrutiAPIPlatform.GetTracks s query video
  = ([], Some (errors_New "shrutiapi is a download-only platform")) ∧
  YoutubifyPlatform.IsValid query = false ∧
  YoutubifyPlatform.GetTracks query
  = ([], Some (errors_New "Youtubify is a direct download platform")).
Proof. repeat split. Qed.

(** C9 (as amended).  When the control-plane or the data-plane request
    fails with an error that [errors.Is] matches to [context.Canceled] or
    [context.DeadlineExceeded] (the context error of the caller, wrapped
    or not, and also the timeout of the HTTP client itself), then
    [getDownloadToken] and [downloadFile] return that error as it is;
    every other request error comes back inside the wrapper of its
    phase.  [Download] adds its own [%w] wrapper in both cases, and
    [errors.Is] on the error it returns matches a context error exactly
    when the request error is of the first kind. *)
Theorem C9_context_errors_returned_unwrapped
    (chk : FS -> string -> string * option error)
    (fuel : nat) (w : World) (s : ShrutiAPIPlatform.t) (track : Track)
    (token filePath : string) (fs : FS) (e : error) :
  let endpoint := ShrutiAPIPlatform.apiURL s +:+ "/download" in
  let mediaType := ShrutiAPIPlatform.mediaType_of track in
  let url := ShrutiAPIPlatform.streamURL s (ID track) mediaType token in
  let control :=
    control_plane w endpoint (ID track) mediaType = RestyErr e ∨
    control_plane w endpoint (ID track) mediaType = RestyUnsent e in
  let request tr :=
    new_request w url = None ∧
    http_Client_do fuel (ShrutiAPIPlatform.client mediaType) (data_plane w)
      url [] = Some (inr e, tr) in
  let caller_check err :=
    errors_Is err context_Canceled || errors_Is err context_DeadlineExceeded in
  (matches_context_error e = true ->
   (control ->
    (ShrutiAPIPlatform.getDownloadToken w s (ID track) mediaType).1
    = ("", Some e)) ∧
   (forall tr, request tr ->
    ShrutiAPIPlatform.downloadFile fuel w s (ID track) mediaType token
      filePath fs = Some (Some e, fs, tr))) ∧
  (matches_context_error e = false ->
   (control ->
    (ShrutiAPIPlatform.getDownloadToken w s (ID track) mediaType).1
    = ("", Some (fmt_Errorf_w "api request failed" e))) ∧
   (forall tr, request tr ->
    ShrutiAPIPlatform.downloadFile fuel w s (ID track) mediaType token
      filePath fs = Some (Some (fmt_Errorf_w "request failed" e), fs, tr))) ∧
  ((chk fs (ID track)).2 ≠ None -> ensureDownloadsDir w = None ->
   control ->
   exists err tr,
     ShrutiAPIPlatform.Download chk fuel w s track fs
     = Some (("", Some err), fs, tr) ∧
     caller_check err = matches_context_error e) ∧
  (forall tr0 tr,
   (chk fs (ID track)).2 ≠ None -> ensureDownloadsDir w = None ->
   ShrutiAPIPlatform.getDownloadToken w s (ID track) mediaType
   = ((token, None), tr0) ->
   request tr ->
   exists err,
     ShrutiAPIPlatform.Download chk fuel w s track fs
     = Some (("", Some err),
             os_Remove fs (ShrutiAPIPlatform.filePath_of track), tr0 ++ tr) ∧
     caller_check err = matches_context_error e).
Proof.
  intros endpoint mediaType url control request caller_check.
  pose proof (is_cancellation_matches e) as Hmatch.
  assert (Htoken : control ->
            (ShrutiAPIPlatform.getDownloadToken w s (ID track) mediaType).1
            = if matches_context_error e then ("", Some e)
              else ("", Some (fmt_Errorf_w "api request failed" e))).
  { intros Hreply. unfold ShrutiAPIPlatform.getDownloadToken.
    fold endpoint. rewrite <- Hmatch.
    destruct Hreply as [-> | ->]; now destruct (is_cancellation e). }
  assert (Hfile : forall path tr, request tr ->
            ShrutiAPIPlatform.downloadFile fuel w s (ID track) mediaType
              token path fs
            = Some (if matches_context_error e then Some e
                    else Some (fmt_Errorf_w "request failed" e), fs, tr)).
  { intros path tr [Hreq Hdo]. unfold ShrutiAPIPlatform.downloadFile.
    fold url. rewrite Hreq, Hdo, <- Hmatch.
    now destruct (is_cancellation e). }
  assert (Hcheck : forall msg x, caller_check (fmt_Errorf_w msg x)
                                 = matches_context_error x).
  { intros msg x. rewrite <- is_cancellation_matches. reflexivity. }
  split; [|split; [|split]].
  - intros He. split.
    + intros Hreply. rewrite (Htoken Hreply), He. reflexivity.
    + intros tr Hrun. rewrite (Hfile filePath tr Hrun), He. reflexivity.
  - intros He. split.
    + intros Hreply. rewrite (Htoken Hreply), He. reflexivity.
    + intros tr Hrun. rewrite (Hfile filePath tr Hrun), He. reflexivity.
  - intros Hmiss Hdir Hreply. specialize (Htoken Hreply).
    unfold ShrutiAPIPlatform.Download.
    destruct (chk fs (ID track)) as [p0 [e0|]]; [|done].
    rewrite Hdir. fold mediaType.
    destruct (ShrutiAPIPlatform.getDownloadToken w s (ID track) mediaType)
      as [[tok terr] tr0]. simpl in Htoken.
    destruct (matches_context_error e) eqn:He;
      injection Htoken as -> ->; eexists _, _;
      (split; [reflexivity|]); rewrite !Hcheck; simpl; exact He.
  - intros tr0 tr Hmiss Hdir Htok Hrun.
    specialize (Hfile (ShrutiAPIPlatform.filePath_of track) tr Hrun).
    unfold ShrutiAPIPlatform.Download.
    destruct (chk fs (ID track)) as [p0 [e0|]]; [|done].
    rewrite Hdir. fold mediaType. rewrite Htok, Hfile.
    destruct (matches_context_error e) eqn:He; eexists;
      (split; [reflexivity|]); rewrite !Hcheck; simpl; exact He.
Qed.

Lemma C9_witness :
  ((ShrutiAPIPlatform.getDownloadToken world_control_deadline
      ShrutiAPIPlatform.registered "abc123" "audio").1
   = ("", Some deadline_request) ∧
   (ShrutiAPIPlatform.getDownloadToken world_control_cancelled
      ShrutiAPIPlatform.registered "abc123" "audio").1
   = ("", Some cancelled_request) ∧
   (ShrutiAPIPlatform.getDownloadToken world_control_unsent
      ShrutiAPIPlatform.registered "abc123" "audio").1
   = ("", Some context_Canceled)) ∧
  (ShrutiAPIPlatform.getDownloadToken world_control_refused
     ShrutiAPIPlatform.registered "abc123" "audio").1
  = ("", Some (fmt_Errorf_w "api request failed" refused_request)) ∧
  exists err tr,
    ShrutiAPIPlatform.Download checkDownloadedFile 1 world_control_refused
      ShrutiAPIPlatform.registered audio_track ∅
    = Some (("", Some err), ∅, tr) ∧
    errors_Is err context_Canceled || errors_Is err context_DeadlineExceeded
    = false.
Proof.
  destruct (C9_context_errors_returned_unwrapped checkDownloadedFile 1
              world_control_deadline ShrutiAPIPlatform.registered
              audio_track "T1" "downloads/abc123.mp3" ∅ deadline_request)
    as ((Hdeadline & _) & _); [reflexivity|].
  destruct (C9_context_errors_returned_unwrapped checkDownloadedFile 1
              world_control_cancelled ShrutiAPIPlatform.registered
              audio_track "T1" "downloads/abc123.mp3" ∅ cancelled_request)
    as ((Hcancelled & _) & _); [reflexivity|].
  destruct (C9_context_errors_returned_unwrapped checkDownloadedFile 1
              world_control_unsent ShrutiAPIPlatform.registered
              audio_track "T1" "downloads/abc123.mp3" ∅ context_Canceled)
    as ((Hunsent & _) & _); [reflexivity|].
  destruct (C9_context_errors_returned_unwrapped checkDownloadedFile 1
              world_control_refused ShrutiAPIPlatform.registered
              audio_track "T1" "downloads/abc123.mp3" ∅ refused_request)
    as (_ & Hrefused & Hdownload & _).
  destruct (Hrefused eq_refl) as [Hwrapped _].
  split; [split; [|split]|split].
  - apply Hdeadline. left. reflexivity.
  - apply Hcancelled. left. reflexivity.
  - apply Hunsent. right. reflexivity.
  - apply Hwrapped. left. reflexivity.
  - apply Hdownload; [vm_compute; discriminate | reflexivity | left; reflexivity].
Defined.

(** C9 as stated fails when the client's own timeout ends the
    control-plane request: the context of the caller never fires, yet the
    error comes back unwrapped, and [errors.Is] on what [Download]
    returns matches [context.DeadlineExceeded], so the check takes this
    failure of the provider for a deadline of the caller. *)
Lemma C9_counterexample :
  (forall k, ctx_Err world_provider_timeout k = None) ∧
  (ShrutiAPIPlatform.getDownloadToken world_provider_timeout
     ShrutiAPIPlatform.registered "abc123" "audio").1
  = ("", Some provider_timeout) ∧
  exists err tr,
    ShrutiAPIPlatform.Download checkDownloadedFile 1 world_provider_timeout
      ShrutiAPIPlatform.registered audio_track ∅
    = Some (("", Some err), ∅, tr) ∧
    errors_Is err context_DeadlineExceeded = true.
Proof.
  split; [reflexivity|]. split; [reflexivity|].
  eexists _, _. split; [vm_compute; reflexivity | reflexivity].
Qed.

(** C10.  For both providers [IsDownloadSupported source] is true exactly
    when [source] is the YouTube platform; in particular it is false for
    the provider's own name, which is a different name. *)
Theorem C10_download_supported_iff_youtube
    (PlatformYouTube : PlatformName) (s : ShrutiAPIPlatform.t)
    (source : PlatformName) :
  (ShrutiAPIPlatform.IsDownloadSupported PlatformYouTube s source = true
   <-> source = PlatformYouTube) ∧
  (YoutubifyPlatform.IsDownloadSupported PlatformYouTube source = true
   <-> source = PlatformYouTube) ∧
  (PlatformYouTube ≠ ShrutiAPIPlatform.PlatformShrutiAPI ->
   ShrutiAPIPlatform.IsDownloadSupported PlatformYouTube s
     ShrutiAPIPlatform.PlatformShrutiAPI = false) ∧
  (PlatformYouTube ≠ YoutubifyPlatform.PlatformYoutubify ->
   YoutubifyPlatform.IsDownloadSupported PlatformYouTube
     YoutubifyPlatform.PlatformYoutubify = false).
Proof.
  unfold ShrutiAPIPlatform.IsDownloadSupported,
    YoutubifyPlatform.IsDownloadSupported.
  repeat split; try apply String.eqb_eq.
  - intros Hne. apply String.eqb_neq. congruence.
  - intros Hne. apply String.eqb_neq. congruence.
Qed.

Lemma C10_witness :
  ShrutiAPIPlatform.IsDownloadSupported "YouTube" ShrutiAPIPlatform.registered
    ShrutiAPIPlatform.PlatformShrutiAPI = false ∧
  YoutubifyPlatform.IsDownloadSupported "YouTube"
    YoutubifyPlatform.PlatformYoutubify = false.
Proof.
  destruct (C10_download_supported_iff_youtube "YouTube"
              ShrutiAPIPlatform.registered "YouTube") as (_ & _ & Hs & Hy).
  split; [apply Hs | apply Hy]; discriminate.
Defined.

(** ** The scenarios of the specification, on ShrutiAPI *)

(** Scenario A: identifier [abc123], audio, nothing cached, token [T1],
    a body of three bytes. *)
Example scenario_A :
  exists tr,
    ShrutiAPIPlatform.Download checkDownloadedFile 1 world_ok
      ShrutiAPIPlatform.registered audio_track ∅
    = Some (("downloads/abc123.mp3", None),
            {["downloads/abc123.mp3" := [x61; x62; x63]]}, tr) ∧
    count is_http_get tr = 1%nat.
Proof. eexists. split; [vm_compute; reflexivity | reflexivity]. Qed.

(** The inputs at which Youtubify keeps a partial or an empty file:
    ShrutiAPI fails on both and leaves nothing behind. *)
Example shruti_removes_partial_and_empty_files :
  (exists tr,
     ShrutiAPIPlatform.Download checkDownloadedFile 1 world_broken_stream
       ShrutiAPIPlatform.registered audio_track ∅
     = Some (("", Some (fmt_Errorf_w "download failed"
                          (fmt_Errorf_w "read error"
                             (sys_Error "unexpected EOF")))), ∅, tr)) ∧
  (exists tr,
     ShrutiAPIPlatform.Download checkDownloadedFile 1 world_empty_body
       ShrutiAPIPlatform.registered audio_track ∅
     = Some (("", Some (errors_New "downloaded file is empty or missing")),
             ∅, tr)).
Proof. split; eexists; vm_compute; reflexivity. Qed.

(** * Further properties of the two providers *)

(** ** A world without cancellation and without write failures *)

Section QuietStreaming.

Variable w : World.
Variable filePath : string.
Hypothesis writes_ok : forall k, write_result w k = None.

Lemma write_chunk_ok (k : nat) (chunk : list byte) (base : FS)
    (c : list byte) :
  write_chunk w k filePath chunk (<[filePath := c]> base)
  = (None, <[filePath := c ++ chunk]> base).
Proof.
  unfold write_chunk. destruct chunk as [|b chunk].
  - now rewrite app_nil_r.
  - now rewrite writes_ok, alter_insert_eq.
Qed.

(** [io.Copy] puts the delivered bytes after what the file holds, and
    fails exactly when the body ends with something else than [io.EOF]. *)
Lemma io_Copy_quiet (body : list ReadEv) :
  forall (k : nat) (base : FS) (c : list byte),
  exists tr,
    YoutubifyPlatform.io_Copy w filePath body k (<[filePath := c]> base)
    = (if error_eqb (ending body) io_EOF then None else Some (ending body),
       <[filePath := c ++ delivered body]> base, tr).
Proof.
  induction body as [|[chunk [e|]] rest IH]; intros k base c; simpl.
  - rewrite app_nil_r. eauto.
  - rewrite write_chunk_ok. eauto.
  - rewrite write_chunk_ok.
    destruct (IH (S k) base (c ++ chunk)) as [tr ->].
    rewrite <- app_assoc. eauto.
Qed.

Hypothesis ctx_quiet : forall k, ctx_Err w k = None.

(** So does the chunk loop, which wraps the read error. *)
Lemma stream_loop_quiet (body : list ReadEv) :
  forall (k : nat) (base : FS) (c : list byte),
  exists tr,
    ShrutiAPIPlatform.stream_loop w filePath body k (<[filePath := c]> base)
    = (if error_eqb (ending body) io_EOF then None
       else Some (fmt_Errorf_w "read error" (ending body)),
       <[filePath := c ++ delivered body]> base, tr).
Proof.
  induction body as [|[chunk [e|]] rest IH]; intros k base c; simpl;
    rewrite ctx_quiet.
  - rewrite app_nil_r. eauto.
  - rewrite write_chunk_ok. destruct (error_eqb e io_EOF); eauto.
  - rewrite write_chunk_ok.
    destruct (IH (S k) base (c ++ chunk)) as [tr ->].
    rewrite <- app_assoc. eauto.
Qed.

End QuietStreaming.

(** ** Effects on the file system *)

Lemma downloadAudio_fs (key : string) (fuel : nat) (w : World)
    (videoID : string) (fs fs' : FS) (res : string * option error)
    (tr : list Event) :
  YoutubifyPlatform.downloadAudio key fuel w videoID fs = Some (res, fs', tr) ->
  fs' = fs ∨
  fs !! ("downloads/" +:+ videoID +:+ ".mp3") = None ∧
  exists content, fs' = <["downloads/" +:+ videoID +:+ ".mp3" := content]> fs.
Proof.
  unfold YoutubifyPlatform.downloadAudio.
  set (filepath := "downloads/" +:+ videoID +:+ ".mp3").
  unfold os_Stat. destruct (fs !! filepath) as [old|] eqn:Hold; simpl.
  { intros [= <- <- <-]. now left. }
  destruct (mkdir_downloads w); [intros [= <- <- <-]; now left|].
  destruct (new_request w _); [intros [= <- <- <-]; now left|].
  destruct (http_Client_do _ _ _ _ _) as [[[resp|err] tr0]|];
    [|intros [= <- <- <-]; now left|done].
  destruct (negb _); [intros [= <- <- <-]; now left|].
  destruct (create_err w _); [intros [= <- <- <-]; now left|].
  destruct (io_Copy_insert w filepath (Body resp) 0 fs []) as [c' Hc'].
  destruct (YoutubifyPlatform.io_Copy w filepath (Body resp) 0
              (<[filepath := []]> fs)) as [[r0 fs0] tr1].
  simpl in Hc'. subst fs0.
  destruct r0; intros [= <- <- <-]; right; eauto.
Qed.

(** X1.  When nothing is cached, the directory and the token are there,
    the data plane answers 200, and neither the context nor a write gets
    in the way, ShrutiAPI's [Download] ends in one of three ways, decided
    by the body alone: it ends with an error other than [io.EOF], and the
    call fails with that read error in two wrappers; it delivers no byte,
    and the call fails as empty; otherwise the call returns the path of
    the track and the file there holds exactly the bytes delivered, the
    chunk that came with [io.EOF] included.  In the two failing cases no
    file is left at the path. *)
Theorem X1_shruti_download_stores_the_body
    (chk : FS -> string -> string * option error)
    (fuel : nat) (w : World) (s : ShrutiAPIPlatform.t) (track : Track)
    (fs : FS) (token : string) (tr0 : list Event) (resp : Response) :
  let mediaType := ShrutiAPIPlatform.mediaType_of track in
  let url := ShrutiAPIPlatform.streamURL s (ID track) mediaType token in
  let path := ShrutiAPIPlatform.filePath_of track in
  (chk fs (ID track)).2 ≠ None ->
  ensureDownloadsDir w = None ->
  ShrutiAPIPlatform.getDownloadToken w s (ID track) mediaType
  = ((token, None), tr0) ->
  new_request w url = None ->
  data_plane w 0 url = HttpResp resp ->
  StatusCode resp = 200 ->
  create_err w path = None ->
  (forall k, ctx_Err w k = None) ->
  (forall k, write_result w k = None) ->
  exists tr,
    ShrutiAPIPlatform.Download chk (S fuel) w s track fs
    = if error_eqb (ending (Body resp)) io_EOF then
        match delivered (Body resp) with
        | [] =>
            Some (("", Some (errors_New "downloaded file is empty or missing")),
                  os_Remove fs path, tr)
        | bytes => Some ((path, None), <[path := bytes]> fs, tr)
        end
      else
        Some (("", Some (fmt_Errorf_w "download failed"
                           (fmt_Errorf_w "read error" (ending (Body resp))))),
              os_Remove fs path, tr).
Proof.
  intros mediaType url path Hmiss Hdir Htoken Hreq Hreply Hstatus Hcreate
    Hctx Hwrites.
  unfold ShrutiAPIPlatform.Download.
  destruct (chk fs (ID track)) as [p0 [e0|]]; [|done].
  rewrite Hdir. fold mediaType. rewrite Htoken.
  unfold ShrutiAPIPlatform.downloadFile. fold url path.
  rewrite Hreq. simpl http_Client_do. rewrite Hreply, Hstatus. simpl negb.
  cbv iota. rewrite Hcreate.
  destruct (stream_loop_quiet w path Hwrites Hctx (Body resp) 0 fs [])
    as [tr1 ->].
  simpl app. unfold os_Remove.
  destruct (error_eqb (ending (Body resp)) io_EOF).
  - unfold os_Stat. rewrite lookup_insert_eq. simpl.
    destruct (delivered (Body resp)) as [|b bytes]; simpl.
    + rewrite delete_insert_eq. eauto.
    + eauto.
  - rewrite delete_insert_eq. eauto.
Qed.

Lemma X1_witness :
  exists tr,
    ShrutiAPIPlatform.Download checkDownloadedFile 1 world_ok
      ShrutiAPIPlatform.registered audio_track ∅
    = Some (("downloads/abc123.mp3", None),
            {["downloads/abc123.mp3" := [x61; x62; x63]]}, tr).
Proof.
  destruct (X1_shruti_download_stores_the_body checkDownloadedFile 0 world_ok
              ShrutiAPIPlatform.registered audio_track ∅ "T1"
              [EvControlGet "https://shrutibots.site/download" "abc123" "audio"]
              (response_200 [([x61; x62], None); ([x63], Some io_EOF)]))
    as [tr Hrun]; try reflexivity.
  - vm_compute. discriminate.
  - exists tr. rewrite Hrun. vm_compute. reflexivity.
Defined.

(** X2.  For an identifier without separator: when nothing is cached
    at [downloads/{id}.mp3], the directory
    is there, the server answers 200 and no write fails, Youtubify's
    [Download] leaves at that path exactly the bytes the body delivered;
    it returns the path when the body ended with [io.EOF] and otherwise
    the read error itself, not wrapped, next to an empty path. *)
Theorem X2_youtubify_download_stores_the_body
    (key : string) (fuel : nat) (w : World) (track : Track) (fs : FS)
    (resp : Response) :
  let url := YoutubifyPlatform.download_url key (ID track) in
  let path := "downloads/" +:+ ID track +:+ ".mp3" in
  has_slash (ID track) = false ->
  fs !! path = None ->
  mkdir_downloads w = None ->
  new_request w url = None ->
  data_plane w 0 url = HttpResp resp ->
  StatusCode resp = 200 ->
  create_err w path = None ->
  (forall k, write_result w k = None) ->
  exists tr,
    YoutubifyPlatform.Download key (S fuel) w track fs
    = Some (if error_eqb (ending (Body resp)) io_EOF then (path, None)
            else ("", Some (ending (Body resp))),
            <[path := delivered (Body resp)]> fs, tr).
Proof.
  intros url path _ Hmiss Hdir Hreq Hreply Hstatus Hcreate Hwrites.
  unfold YoutubifyPlatform.Download, YoutubifyPlatform.downloadAudio.
  fold url path. unfold os_Stat. rewrite Hmiss, Hdir, Hreq. simpl fmap.
  cbv iota. simpl http_Client_do. rewrite Hreply, Hstatus. simpl negb.
  cbv iota. rewrite Hcreate.
  destruct (io_Copy_quiet w path Hwrites (Body resp) 0 fs []) as [tr1 ->].
  simpl app. destruct (error_eqb (ending (Body resp)) io_EOF); eauto.
Qed.

Lemma X2_witness :
  exists tr,
    YoutubifyPlatform.Download "key" 1 world_deadline_in_read audio_track ∅
    = Some (("", Some (url_Error "Get" "stream" context_DeadlineExceeded)),
            {["downloads/abc123.mp3" := [x61; x62]]}, tr).
Proof.
  destruct (X2_youtubify_download_stores_the_body "key" 0
              world_deadline_in_read audio_track ∅
              (response_200
                 [([x61], None); ([x62], None);
                  ([], Some (url_Error "Get" "stream"
                               context_DeadlineExceeded))]))
    as [tr Hrun]; try reflexivity.
  exists tr. rewrite Hrun. vm_compute. reflexivity.
Defined.

(** X3.  Whatever the world and the cache lookup, a run of ShrutiAPI's
    [Download] leaves every file other than the one of the track as it
    was.  When it fails, the returned path is empty and the file system
    is either untouched or the one before the call without the file of
    the track: nothing the attempt wrote survives. *)
Theorem X3_shruti_download_touches_one_file
    (chk : FS -> string -> string * option error)
    (fuel : nat) (w : World) (s : ShrutiAPIPlatform.t) (track : Track)
    (fs fs' : FS) (path : string) (err : option error) (tr : list Event) :
  ShrutiAPIPlatform.Download chk fuel w s track fs
  = Some ((path, err), fs', tr) ->
  (forall q, q ≠ ShrutiAPIPlatform.filePath_of track -> fs' !! q = fs !! q) ∧
  (err ≠ None ->
   path = "" ∧
   (fs' = fs ∨ fs' = os_Remove fs (ShrutiAPIPlatform.filePath_of track))).
Proof.
  unfold ShrutiAPIPlatform.Download, os_Remove.
  set (target := ShrutiAPIPlatform.filePath_of track).
  destruct (chk fs (ID track)) as [p0 [e0|]];
    [|intros [= <- <- <- <-]; split; [done|congruence]].
  destruct (ensureDownloadsDir w);
    [intros [= <- <- <- <-]; split; [done|auto]|].
  destruct (ShrutiAPIPlatform.getDownloadToken w s _ _)
    as [[token [terr|]] tr0];
    [intros [= <- <- <- <-]; split; [done|auto]|].
  destruct (ShrutiAPIPlatform.downloadFile _ _ _ _ _ _ _ _)
    as [[[r fs1] tr1]|] eqn:Hdl; [|done].
  assert (Hdel : delete target fs1 = delete target fs).
  { apply downloadFile_fs in Hdl as [[-> _]|[content ->]]; [done|].
    apply delete_insert_eq. }
  assert (Hframe : forall q, q ≠ target -> fs1 !! q = fs !! q).
  { intros q Hq. apply downloadFile_fs in Hdl as [[-> _]|[content ->]];
      [done|]. now apply lookup_insert_ne. }
  assert (Hframe' : forall q, q ≠ target -> delete target fs1 !! q = fs !! q).
  { intros q Hq. rewrite lookup_delete_ne by done. now apply Hframe. }
  destruct r as [derr|].
  { intros [= <- <- <- <-]. split; [exact Hframe'|]. rewrite Hdel. auto. }
  destruct (os_Stat fs1 target) as [size|].
  - destruct (size =? 0); intros [= <- <- <- <-].
    + split; [exact Hframe'|]. rewrite Hdel. auto.
    + split; [exact Hframe|congruence].
  - intros [= <- <- <- <-]. split; [exact Hframe'|]. rewrite Hdel. auto.
Qed.

Lemma X3_witness :
  let fs : FS := {["other.txt" := [x61]]} in
  let target := "downloads/abc123.mp3" in
  let err := fmt_Errorf_w "download failed"
               (fmt_Errorf_w "read error" (sys_Error "unexpected EOF")) in
  (forall q, q ≠ target -> os_Remove fs target !! q = fs !! q) ∧
  (Some err ≠ None ->
   "" = "" ∧ (os_Remove fs target = fs ∨ os_Remove fs target = os_Remove fs target)).
Proof.
  intros fs target err.
  apply (X3_shruti_download_touches_one_file checkDownloadedFile 1
           world_broken_stream ShrutiAPIPlatform.registered audio_track
           fs (os_Remove fs target) "" (Some err)
           [EvControlGet "https://shrutibots.site/download" "abc123" "audio";
            EvHttpGet "https://shrutibots.site/stream/abc123?type=audio&token=T1";
            EvCtxPoll; EvBodyRead; EvCtxPoll; EvBodyRead]).
  vm_compute. reflexivity.
Defined.

(** X4.  For an identifier without separator, a run of Youtubify's
    [Download] never removes a file and never
    touches a file other than [downloads/{id}.mp3]; when that file is
    already there, the call changes nothing, makes no request and returns
    its path.  When the call fails the returned path is empty. *)
Theorem X4_youtubify_download_touches_one_file
    (key : string) (fuel : nat) (w : World) (track : Track)
    (fs fs' : FS) (path : string) (err : option error) (tr : list Event) :
  let target := "downloads/" +:+ ID track +:+ ".mp3" in
  has_slash (ID track) = false ->
  YoutubifyPlatform.Download key fuel w track fs
  = Some ((path, err), fs', tr) ->
  (forall q, q ≠ target -> fs' !! q = fs !! q) ∧
  (forall q, is_Some (fs !! q) -> is_Some (fs' !! q)) ∧
  (is_Some (fs !! target) ->
   fs' = fs ∧ tr = [] ∧ path = target ∧ err = None) ∧
  (err ≠ None -> path = "").
Proof.
  intros target _ Hrun. unfold YoutubifyPlatform.Download in Hrun.
  split; [|split; [|split]].
  - intros q Hq. apply downloadAudio_fs in Hrun as [->|[_ [content ->]]];
      [done|]. now apply lookup_insert_ne.
  - intros q Hsome. apply downloadAudio_fs in Hrun as [->|[Hnone [content ->]]];
      [done|]. destruct (decide (q = target)) as [->|Hne].
    + rewrite lookup_insert_eq. eauto.
    + now rewrite lookup_insert_ne.
  - intros [old Hold]. revert Hrun. unfold YoutubifyPlatform.downloadAudio.
    fold target. unfold os_Stat. rewrite Hold. simpl.
    now intros [= <- <- <- <-].
  - revert Hrun. unfold YoutubifyPlatform.downloadAudio. fold target.
    destruct (os_Stat fs target); [intros [= <- <- <- <-]; congruence|].
    destruct (mkdir_downloads w); [now intros [= <- <- <- <-]|].
    destruct (new_request w _); [now intros [= <- <- <- <-]|].
    destruct (http_Client_do _ _ _ _ _) as [[[resp|e] tr0]|];
      [|now intros [= <- <- <- <-]|done].
    destruct (negb _); [now intros [= <- <- <- <-]|].
    destruct (create_err w _); [now intros [= <- <- <- <-]|].
    destruct (YoutubifyPlatform.io_Copy w target (Body resp) 0
                (<[target := []]> fs)) as [[r0 fs0] tr1].
    destruct r0; intros [= <- <- <- <-]; congruence.
Qed.

Lemma X4_witness :
  let fs : FS := {["other.txt" := [x61]]} in
  let target := "downloads/abc123.mp3" in
  let fs' : FS := <[target := [x61; x62]]> fs in
  (forall q, q ≠ target -> fs' !! q = fs !! q) ∧
  (forall q, is_Some (fs !! q) -> is_Some (fs' !! q)) ∧
  (is_Some (fs !! target) ->
   fs' = fs ∧
   [EvHttpGet "https://youtubify.me/download/audio?video_id=abc123&mode=download&no_redirect=1&api_key=key";
    EvBodyRead; EvBodyRead] = [] ∧
   "" = target ∧ Some (sys_Error "unexpected EOF") = None) ∧
  (Some (sys_Error "unexpected EOF") ≠ None -> "" = "").
Proof.
  intros fs target fs'.
  apply (X4_youtubify_download_touches_one_file "key" 1 world_broken_stream
           audio_track fs fs' "" (Some (sys_Error "unexpected EOF"))).
  - reflexivity.
  - vm_compute. reflexivity.
Defined.

(** ** The control plane *)

(** X5.  [getDownloadToken] makes at most one control-plane request,
    carrying the identifier and the media type: none when the error
    arose before anything was sent, one otherwise.  It returns a token
    without error exactly when the endpoint answered with a status in
    200..299 and a non-empty token, and the token returned is that one;
    a status above 399 is reported as a status error, any other answer
    without a usable token as an empty token, and in every failing case
    the returned token is empty. *)
Theorem X5_getDownloadToken_outcomes
    (w : World) (s : ShrutiAPIPlatform.t) (videoID mediaType : string) :
  let endpoint := ShrutiAPIPlatform.apiURL s +:+ "/download" in
  let reply := control_plane w endpoint videoID mediaType in
  let '((token, err), tr) :=
    ShrutiAPIPlatform.getDownloadToken w s videoID mediaType in
  tr = match reply with
       | RestyUnsent _ => []
       | _ => [EvControlGet endpoint videoID mediaType]
       end ∧
  (err = None <->
   exists status, reply = RestyResp status token ∧
     ShrutiAPIPlatform.IsSuccess status = true ∧ token ≠ "") ∧
  (err ≠ None -> token = "") ∧
  (forall status body_token, reply = RestyResp status body_token ->
     399 < status ->
     err = Some (fmt_Errorf_d "api returned status" status)) ∧
  (forall status body_token, reply = RestyResp status body_token ->
     status <= 399 -> ~ (200 <= status <= 299 ∧ body_token ≠ "") ->
     err = Some (errors_New "empty download token received")).
Proof.
  intros endpoint reply.
  unfold ShrutiAPIPlatform.getDownloadToken. fold endpoint reply.
  unfold ShrutiAPIPlatform.IsError, ShrutiAPIPlatform.IsSuccess.
  destruct reply as [e|e|status body_token].
  1, 2: destruct (is_cancellation e);
      (split; [reflexivity|]);
      (split; [split; [discriminate | intros (? & ? & _); discriminate]|]);
      (split; [intros; reflexivity|]); split; intros; discriminate.
  assert (Hrange : (199 <? status) && (status <? 300) = true
                   <-> 200 <= status <= 299).
  { rewrite andb_true_iff, !Z.ltb_lt. lia. }
  destruct (Z.ltb_spec 399 status) as [Hhigh|Hlow].
  { split; [reflexivity|]. split.
    - split; [discriminate|]. intros (st & Heq & Hok & _).
      injection Heq as <- _. apply Hrange in Hok. lia.
    - split; [intros; reflexivity|]. split.
      + intros st bt Heq _. now injection Heq as <- _.
      + intros st bt Heq Hle. injection Heq as <- _. lia. }
  destruct ((199 <? status) && (status <? 300)) eqn:Hok; simpl.
  - destruct (String.eqb_spec body_token "") as [Hempty|Hne].
    + split; [reflexivity|]. split.
      * split; [discriminate|]. intros (st & Heq & _ & Habs). now elim Habs.
      * split; [intros; reflexivity|]. split.
        -- intros st bt Heq Hgt. injection Heq as <- _. lia.
        -- intros; reflexivity.
    + split; [reflexivity|]. split.
      * split; [|intros; reflexivity]. intros _. exists status. now repeat split.
      * split; [congruence|]. split.
        -- intros st bt Heq Hgt. injection Heq as <- _. lia.
        -- intros st bt Heq _ Hnot. injection Heq as <- <-.
           exfalso. apply Hnot. split; [now apply Hrange | exact Hne].
  - split; [reflexivity|]. split.
    + split; [discriminate|]. intros (st & Heq & Hst & _).
      injection Heq as <- _. congruence.
    + split; [intros; reflexivity|]. split.
      * intros st bt Heq Hgt. injection Heq as <- _. lia.
      * intros; reflexivity.
Qed.

(** ** Requests *)

Lemma gets_no_control (tr : list Event) :
  count is_http_get tr = length tr -> count is_control tr = 0%nat.
Proof.
  unfold count. induction tr as [|ev tr IH]; [done|].
  pose proof (List.filter_length_le is_http_get tr) as Hle.
  destruct ev; simpl; intros Hlen; lia.
Qed.

Lemma stream_loop_no_control (w : World) (filePath : string)
    (body : list ReadEv) :
  forall (k : nat) (fs : FS),
    count is_control
      (ShrutiAPIPlatform.stream_loop w filePath body k fs).2 = 0%nat.
Proof.
  induction body as [|[chunk rerr] rest IH]; intros k fs; simpl.
  - destruct (ctx_Err w k); reflexivity.
  - destruct (ctx_Err w k); [reflexivity|].
    destruct (write_chunk w k filePath chunk fs) as [[werr|] fs'];
      [reflexivity|].
    destruct rerr as [err|].
    + destruct (error_eqb err io_EOF); reflexivity.
    + specialize (IH (S k) fs').
      destruct (ShrutiAPIPlatform.stream_loop w filePath rest (S k) fs')
        as [[r fs''] tr]. exact IH.
Qed.

(** The trace of [getDownloadToken]: the one request, or nothing when
    the call failed before sending. *)
Lemma getDownloadToken_trace (w : World) (s : ShrutiAPIPlatform.t)
    (videoID mediaType : string) (token : string) (err : option error)
    (tr : list Event) :
  ShrutiAPIPlatform.getDownloadToken w s videoID mediaType
  = ((token, err), tr) ->
  tr = [EvControlGet (ShrutiAPIPlatform.apiURL s +:+ "/download")
          videoID mediaType] ∨
  tr = [] ∧ err ≠ None.
Proof.
  unfold ShrutiAPIPlatform.getDownloadToken.
  destruct (control_plane w _ _ _) as [e|e|status body_token].
  - destruct (is_cancellation e); intros [= <- <- <-]; now right.
  - destruct (is_cancellation e); intros [= <- <- <-]; now left.
  - destruct (ShrutiAPIPlatform.IsError status);
      [intros [= <- <- <-]; now left|].
    destruct (String.eqb _ ""); intros [= <- <- <-]; now left.
Qed.

(** [downloadFile] returns, after at most ten requests, none of them to
    the control plane. *)
Lemma downloadFile_budget (fuel : nat) (w : World) (s : ShrutiAPIPlatform.t)
    (videoID mediaType token filePath : string) (fs : FS) :
  (10 <= fuel)%nat ->
  exists r fs' tr,
    ShrutiAPIPlatform.downloadFile fuel w s videoID mediaType token
      filePath fs = Some (r, fs', tr) ∧
    (count is_http_get tr <= 10)%nat ∧ count is_control tr = 0%nat.
Proof.
  intros Hfuel. unfold ShrutiAPIPlatform.downloadFile.
  set (url := ShrutiAPIPlatform.streamURL s videoID mediaType token).
  destruct (new_request w url).
  { eexists _, _, _. split; [reflexivity|]. unfold count; simpl. lia. }
  destruct (http_Client_do_returns (ShrutiAPIPlatform.client mediaType)
              (errors_New "too many redirects") ltac:(reflexivity)
              (data_plane w) fuel url [])
    as (res & tr & Hdo & Hget & Hlen); [simpl; lia..|].
  simpl in Hlen. rewrite Hdo.
  pose proof (gets_no_control tr Hget) as Hctl.
  destruct res as [resp|err].
  - destruct (negb _).
    { eexists _, _, _. split; [reflexivity|]. lia. }
    destruct (create_err w filePath).
    { eexists _, _, _. split; [reflexivity|]. lia. }
    pose proof (stream_loop_no_get w filePath (Body resp) 0
                  (<[filePath := []]> fs)) as Hget'.
    pose proof (stream_loop_no_control w filePath (Body resp) 0
                  (<[filePath := []]> fs)) as Hctl'.
    destruct (ShrutiAPIPlatform.stream_loop w filePath (Body resp) 0
                (<[filePath := []]> fs)) as [[r fs'] tr'].
    simpl in Hget', Hctl'. eexists _, _, _. split; [reflexivity|].
    rewrite !count_app. lia.
  - destruct (is_cancellation err);
      eexists _, _, _; (split; [reflexivity|]); lia.
Qed.

(** X6.  With fuel for ten requests, ShrutiAPI's [Download] returns for
    every world and every cache lookup.  A run makes at most one
    control-plane request and at most ten data-plane requests, and when
    it makes any request at all the first one is the control-plane request
    for the track's identifier and media type: the token is never asked
    for twice and the data plane is never contacted without asking for
    it. *)
Theorem X6_shruti_download_request_budget
    (chk : FS -> string -> string * option error)
    (fuel : nat) (w : World) (s : ShrutiAPIPlatform.t) (track : Track)
    (fs : FS) :
  (10 <= fuel)%nat ->
  exists res fs' tr,
    ShrutiAPIPlatform.Download chk fuel w s track fs = Some (res, fs', tr) ∧
    (count is_control tr <= 1)%nat ∧
    (count is_http_get tr <= 10)%nat ∧
    (tr = [] ∨
     exists tr',
       tr = EvControlGet (ShrutiAPIPlatform.apiURL s +:+ "/download")
              (ID track) (ShrutiAPIPlatform.mediaType_of track) :: tr').
Proof.
  intros Hfuel. unfold ShrutiAPIPlatform.Download.
  destruct (chk fs (ID track)) as [p0 [e0|]].
  2: { eexists _, _, _. split; [reflexivity|]. unfold count; simpl.
       repeat split; try lia. now left. }
  destruct (ensureDownloadsDir w).
  { eexists _, _, _. split; [reflexivity|]. unfold count; simpl.
    repeat split; try lia. now left. }
  destruct (ShrutiAPIPlatform.getDownloadToken w s _ _)
    as [[token [terr|]] tr0] eqn:Htoken;
    apply getDownloadToken_trace in Htoken as [-> | [-> Hfailed]];
    try done.
  { eexists _, _, _. split; [reflexivity|]. unfold count; simpl.
    repeat split; try lia. right. eauto. }
  { eexists _, _, _. split; [reflexivity|]. unfold count; simpl.
    repeat split; try lia. now left. }
  destruct (downloadFile_budget fuel w s (ID track)
              (ShrutiAPIPlatform.mediaType_of track) token
              (ShrutiAPIPlatform.filePath_of track) fs Hfuel)
    as (r & fs1 & tr1 & -> & Hget & Hctl).
  assert (Hcount : (count is_control
                      (EvControlGet (ShrutiAPIPlatform.apiURL s +:+ "/download")
                         (ID track) (ShrutiAPIPlatform.mediaType_of track)
                       :: tr1) <= 1)%nat ∧
                   (count is_http_get
                      (EvControlGet (ShrutiAPIPlatform.apiURL s +:+ "/download")
                         (ID track) (ShrutiAPIPlatform.mediaType_of track)
                       :: tr1) <= 10)%nat).
  { unfold count in *. simpl. lia. }
  destruct r as [derr|].
  { eexists _, _, _. split; [reflexivity|]. simpl app.
    split; [apply Hcount|]. split; [apply Hcount|]. right. eauto. }
  destruct (os_Stat fs1 _) as [size|]; [destruct (size =? 0)|];
    eexists _, _, _; (split; [reflexivity|]); simpl app;
    (split; [apply Hcount|]); (split; [apply Hcount|]); right; eauto.
Qed.

Lemma X6_witness :
  exists res fs' tr,
    ShrutiAPIPlatform.Download checkDownloadedFile 10 world_redirect_loop
      ShrutiAPIPlatform.registered video_track ∅ = Some (res, fs', tr) ∧
    (count is_control tr <= 1)%nat ∧
    (count is_http_get tr <= 10)%nat ∧
    (tr = [] ∨
     exists tr',
       tr = EvControlGet "https://shrutibots.site/download" "abc123" "video"
            :: tr').
Proof.
  apply (X6_shruti_download_request_budget checkDownloadedFile 10
           world_redirect_loop ShrutiAPIPlatform.registered video_track ∅).
  lia.
Defined.

(** X7.  A data-plane answer with a status other than 200 makes both
    providers fail without reading the body and without creating a file.
    ShrutiAPI reports [download failed: unexpected status code: N] and
    removes whatever is at the path of the track; Youtubify, for an
    identifier without separator, reports [API returned] with the status
    line and leaves the file system as it was. *)
Theorem X7_status_other_than_200_fails
    (chk : FS -> string -> string * option error) (key : string)
    (fuel : nat) (w : World) (s : ShrutiAPIPlatform.t) (track : Track)
    (fs : FS) (resp : Response) :
  StatusCode resp ≠ 200 ->
  (forall token tr0 tr,
     (chk fs (ID track)).2 ≠ None ->
     ensureDownloadsDir w = None ->
     ShrutiAPIPlatform.getDownloadToken w s (ID track)
       (ShrutiAPIPlatform.mediaType_of track) = ((token, None), tr0) ->
     new_request w (ShrutiAPIPlatform.streamURL s (ID track)
                      (ShrutiAPIPlatform.mediaType_of track) token) = None ->
     http_Client_do fuel
       (ShrutiAPIPlatform.client (ShrutiAPIPlatform.mediaType_of track))
       (data_plane w)
       (ShrutiAPIPlatform.streamURL s (ID track)
          (ShrutiAPIPlatform.mediaType_of track) token) []
     = Some (inl resp, tr) ->
     ShrutiAPIPlatform.Download chk fuel w s track fs
     = Some (("", Some (fmt_Errorf_w "download failed"
                          (fmt_Errorf_d "unexpected status code"
                             (StatusCode resp)))),
             os_Remove fs (ShrutiAPIPlatform.filePath_of track), tr0 ++ tr) ∧
     count is_read (tr0 ++ tr) = 0%nat) ∧
  (forall tr,
     has_slash (ID track) = false ->
     fs !! ("downloads/" +:+ ID track +:+ ".mp3") = None ->
     mkdir_downloads w = None ->
     new_request w (YoutubifyPlatform.download_url key (ID track)) = None ->
     http_Client_do fuel YoutubifyPlatform.client (data_plane w)
       (YoutubifyPlatform.download_url key (ID track)) []
     = Some (inl resp, tr) ->
     YoutubifyPlatform.Download key fuel w track fs
     = Some (("", Some (fmt_Errorf_s "API returned" (Status resp))), fs, tr) ∧
     count is_read tr = 0%nat).
Proof.
  intros Hstatus. apply Z.eqb_neq in Hstatus. split.
  - intros token tr0 tr Hmiss Hdir Htoken Hreq Hdo.
    unfold ShrutiAPIPlatform.Download.
    destruct (chk fs (ID track)) as [p0 [e0|]]; [|done].
    rewrite Hdir, Htoken. unfold ShrutiAPIPlatform.downloadFile.
    rewrite Hreq, Hdo, Hstatus. simpl. split; [reflexivity|].
    apply http_Client_do_trace, gets_only in Hdo as [Hreads _].
    rewrite count_app, Hreads.
    assert (tr0 = [EvControlGet (ShrutiAPIPlatform.apiURL s +:+ "/download")
                     (ID track) (ShrutiAPIPlatform.mediaType_of track)])
      as ->; [|reflexivity].
    now apply getDownloadToken_trace in Htoken as [-> | [_ Habs]].
  - intros tr _ Hmiss Hdir Hreq Hdo.
    unfold YoutubifyPlatform.Download, YoutubifyPlatform.downloadAudio.
    unfold os_Stat. rewrite Hmiss, Hdir, Hreq, Hdo, Hstatus. simpl.
    split; [reflexivity|].
    now apply http_Client_do_trace, gets_only in Hdo as [Hreads _].
Qed.

Lemma X7_witness :
  (exists tr,
     ShrutiAPIPlatform.Download checkDownloadedFile 1 world_stream_500
       ShrutiAPIPlatform.registered audio_track ∅
     = Some (("", Some (fmt_Errorf_w "download failed"
                          (fmt_Errorf_d "unexpected status code" 500))),
             ∅, tr) ∧
     count is_read tr = 0%nat) ∧
  (exists tr,
     YoutubifyPlatform.Download "key" 1 world_stream_500 audio_track ∅
     = Some (("", Some (fmt_Errorf_s "API returned"
                          "500 Internal Server Error")), ∅, tr) ∧
     count is_read tr = 0%nat).
Proof.
  destruct (X7_status_other_than_200_fails checkDownloadedFile "key" 1
              world_stream_500 ShrutiAPIPlatform.registered audio_track ∅
              {| StatusCode := 500; Status := "500 Internal Server Error";
                 Body := [([x65], Some io_EOF)] |})
    as [Hs Hy]; [discriminate|].
  split.
  - eexists.
    apply (Hs "T1"
             [EvControlGet "https://shrutibots.site/download" "abc123" "audio"]
             [EvHttpGet "https://shrutibots.site/stream/abc123?type=audio&token=T1"]);
      try reflexivity.
    vm_compute. discriminate.
  - eexists. apply Hy; reflexivity.
Defined.

(** X8.  For an identifier without separator and with nothing cached:
    when the server answers each of the first ten requests with a
    redirect, Youtubify's [Download] gives up after exactly ten requests
    with the error of the default redirect policy, as [Client.Get]
    returned it, without reading a body and without creating a file. *)
Theorem X8_youtubify_redirect_loop_fails
    (key : string) (fuel : nat) (w : World) (track : Track) (fs : FS) :
  has_slash (ID track) = false ->
  (10 <= fuel)%nat ->
  fs !! ("downloads/" +:+ ID track +:+ ".mp3") = None ->
  mkdir_downloads w = None ->
  new_request w (YoutubifyPlatform.download_url key (ID track)) = None ->
  (forall hop url, (hop < 10)%nat ->
     exists loc, data_plane w hop url = HttpRedirect loc) ->
  exists loc tr,
    YoutubifyPlatform.Download key fuel w track fs
    = Some (("", Some (url_Error "Get" loc
                         (errors_New "stopped after 10 redirects"))),
            fs, tr) ∧
    count is_http_get tr = 10%nat ∧ count is_read tr = 0%nat.
Proof.
  intros _ Hfuel Hmiss Hdir Hreq Hred.
  set (url := YoutubifyPlatform.download_url key (ID track)) in *.
  destruct (http_Client_do_redirected YoutubifyPlatform.client
              (errors_New "stopped after 10 redirects") ltac:(reflexivity)
              (data_plane w) fuel Hred url [])
    as (loc & tr & Hdo & Hlen); [simpl; lia..|].
  pose proof (http_Client_do_trace _ _ _ _ _ _ _ Hdo) as Hgets.
  destruct (gets_only tr Hgets) as [Hreads _].
  unfold YoutubifyPlatform.Download, YoutubifyPlatform.downloadAudio.
  fold url. unfold os_Stat. rewrite Hmiss, Hdir, Hreq, Hdo. simpl.
  eexists _, _. split; [reflexivity|]. simpl in Hlen. split; [lia|exact Hreads].
Qed.

Lemma X8_witness :
  exists loc tr,
    YoutubifyPlatform.Download "key" 10 world_redirect_loop audio_track ∅
    = Some (("", Some (url_Error "Get" loc
                         (errors_New "stopped after 10 redirects"))),
            ∅, tr) ∧
    count is_http_get tr = 10%nat ∧ count is_read tr = 0%nat.
Proof.
  apply (X8_youtubify_redirect_loop_fails "key" 10 world_redirect_loop
           audio_track ∅).
  - reflexivity.
  - lia.
  - reflexivity.
  - reflexivity.
  - reflexivity.
  - intros hop url _. eexists. reflexivity.
Defined.

(** ** Cache paths *)

Lemma append_suffix_inj (a : string) :
  forall (b s t : string),
    String.length s = String.length t ->
    a +:+ s = b +:+ t -> a = b ∧ s = t.
Proof.
  induction a as [|c a IH]; intros b s t Hlen Heq.
  - destruct b as [|c' b]; [now split|].
    apply (f_equal String.length) in Heq.
    rewrite !length_append in Heq. simpl in Heq. lia.
  - destruct b as [|c' b].
    + apply (f_equal String.length) in Heq.
      rewrite !length_append in Heq. simpl in Heq. lia.
    + cbv [String.append] in Heq. fold String.append in Heq.
      injection Heq as -> Heq. destruct (IH b s t Hlen Heq) as [-> ->].
      now split.
Qed.

(** X9.  For identifiers that are plain file names, the cache path of
    ShrutiAPI determines the identifier and the media kind: two tracks
    share a file only if they agree on both.  The file ShrutiAPI uses for
    a track is the one Youtubify uses for an identifier exactly when the
    identifiers are equal and the track is audio. *)
Theorem X9_cache_paths_determine_the_track (t1 t2 : Track) :
  has_slash (ID t1) = false ->
  has_slash (ID t2) = false ->
  (ShrutiAPIPlatform.filePath_of t1 = ShrutiAPIPlatform.filePath_of t2
   <-> ID t1 = ID t2 ∧ Video t1 = Video t2) ∧
  (ShrutiAPIPlatform.filePath_of t1 = "downloads/" +:+ ID t2 +:+ ".mp3"
   <-> ID t1 = ID t2 ∧ Video t1 = false).
Proof.
  intros H1 H2. rewrite !filePath_of_plain by assumption.
  assert (Hinj : forall (e1 e2 : string),
            String.length e1 = String.length e2 ->
            "downloads/" +:+ ID t1 +:+ e1 = "downloads/" +:+ ID t2 +:+ e2 ->
            ID t1 = ID t2 ∧ e1 = e2).
  { intros e1 e2 Hlen Heq. cbv [String.append] in Heq. simpl in Heq.
    injection Heq as Heq. now apply append_suffix_inj. }
  split; split.
  - intros Heq. destruct (Video t1), (Video t2);
      apply Hinj in Heq as [Hid Hext]; try reflexivity;
      (split; [exact Hid|]); try reflexivity; discriminate.
  - intros [-> ->]. reflexivity.
  - intros Heq. destruct (Video t1);
      apply Hinj in Heq as [Hid Hext]; try reflexivity;
      (split; [exact Hid|]); try reflexivity; discriminate.
  - intros [-> ->]. reflexivity.
Qed.

Lemma X9_witness :
  (ShrutiAPIPlatform.filePath_of audio_track
   = ShrutiAPIPlatform.filePath_of video_track
   <-> ID audio_track = ID video_track ∧ Video audio_track = Video video_track) ∧
  (ShrutiAPIPlatform.filePath_of audio_track
   = "downloads/" +:+ ID video_track +:+ ".mp3"
   <-> ID audio_track = ID video_track ∧ Video audio_track = false).
Proof.
  apply (X9_cache_paths_determine_the_track audio_track video_track);
    reflexivity.
Defined.

(** X10.  The two providers share the cache for audio: once ShrutiAPI has
    downloaded an audio track with a plain identifier, Youtubify's
    [Download] for that identifier returns the same path from the file
    system ShrutiAPI left, without any request and in any world. *)
Theorem X10_youtubify_serves_what_shruti_downloaded
    (chk : FS -> string -> string * option error) (key : string)
    (fuel1 fuel2 : nat) (w1 w2 : World) (s : ShrutiAPIPlatform.t)
    (t1 t2 : Track) (fs fs1 : FS) (path : string) (tr1 : list Event) :
  has_slash (ID t1) = false ->
  Video t1 = false ->
  ID t2 = ID t1 ->
  (chk fs (ID t1)).2 ≠ None ->
  ShrutiAPIPlatform.Download chk fuel1 w1 s t1 fs
  = Some ((path, None), fs1, tr1) ->
  YoutubifyPlatform.Download key fuel2 w2 t2 fs1
  = Some ((path, None), fs1, []).
Proof.
  intros Hplain Haudio Hid Hmiss Hrun.
  apply (Download_fresh_success chk) in Hrun
    as [-> (content & _ & ->)]; [|exact Hmiss].
  rewrite (filePath_of_plain t1 Hplain), Haudio.
  unfold YoutubifyPlatform.Download, YoutubifyPlatform.downloadAudio.
  rewrite Hid. unfold os_Stat. now rewrite lookup_insert_eq.
Qed.

Lemma X10_witness :
  let fs1 : FS := {["downloads/abc123.mp3" := [x61; x62; x63]]} in
  YoutubifyPlatform.Download "key" 0 world_redirect_loop video_track fs1
  = Some (("downloads/abc123.mp3", None), fs1, []).
Proof.
  intros fs1.
  apply (X10_youtubify_serves_what_shruti_downloaded checkDownloadedFile "key"
           1 0 world_ok world_redirect_loop ShrutiAPIPlatform.registered
           audio_track video_track ∅ fs1 "downloads/abc123.mp3"
           [EvControlGet "https://shrutibots.site/download" "abc123" "audio";
            EvHttpGet "https://shrutibots.site/stream/abc123?type=audio&token=T1";
            EvCtxPoll; EvBodyRead; EvCtxPoll; EvBodyRead]).
  - reflexivity.
  - reflexivity.
  - reflexivity.
  - vm_compute. discriminate.
  - vm_compute. reflexivity.
Defined.

(** ** A successful download is complete *)

Section Completeness.

Variable w : World.
Variable filePath : string.

Lemma write_chunk_success (k : nat) (chunk : list byte) (base fs' : FS)
    (c : list byte) :
  write_chunk w k filePath chunk (<[filePath := c]> base) = (None, fs') ->
  fs' = <[filePath := c ++ chunk]> base.
Proof.
  unfold write_chunk. destruct chunk as [|b chunk].
  - intros [= <-]. now rewrite app_nil_r.
  - destruct (write_result w k) as [[n e]|]; [done|].
    intros [= <-]. now rewrite alter_insert_eq.
Qed.

(** The chunk loop returns nil only when the body ended with [io.EOF]
    and everything it delivered is in the file. *)
Lemma stream_loop_success (body : list ReadEv) :
  forall (k : nat) (base fs' : FS) (c : list byte) (tr : list Event),
    ShrutiAPIPlatform.stream_loop w filePath body k (<[filePath := c]> base)
    = (None, fs', tr) ->
    error_eqb (ending body) io_EOF = true ∧
    fs' = <[filePath := c ++ delivered body]> base.
Proof.
  induction body as [|[chunk rerr] rest IH]; intros k base fs' c tr; simpl.
  - destruct (ctx_Err w k); [done|]. intros [= <- <-].
    now rewrite app_nil_r.
  - destruct (ctx_Err w k); [done|].
    destruct (write_chunk w k filePath chunk (<[filePath := c]> base))
      as [[werr|] fs1] eqn:Hw; [done|].
    apply write_chunk_success in Hw as ->.
    destruct rerr as [err|].
    + destruct (error_eqb err io_EOF) eqn:Heof; [|done].
      now intros [= <- <-].
    + destruct (ShrutiAPIPlatform.stream_loop w filePath rest (S k)
                  (<[filePath := c ++ chunk]> base))
        as [[r fs2] tr2] eqn:Hloop.
      intros [= -> -> <-]. apply IH in Hloop as [Heof ->].
      now rewrite <- app_assoc.
Qed.

(** So does [io.Copy]. *)
Lemma io_Copy_success (body : list ReadEv) :
  forall (k : nat) (base fs' : FS) (c : list byte) (tr : list Event),
    YoutubifyPlatform.io_Copy w filePath body k (<[filePath := c]> base)
    = (None, fs', tr) ->
    error_eqb (ending body) io_EOF = true ∧
    fs' = <[filePath := c ++ delivered body]> base.
Proof.
  induction body as [|[chunk rerr] rest IH]; intros k base fs' c tr; simpl.
  - intros [= <- <-]. now rewrite app_nil_r.
  - destruct (write_chunk w k filePath chunk (<[filePath := c]> base))
      as [[werr|] fs1] eqn:Hw; [done|].
    apply write_chunk_success in Hw as ->.
    destruct rerr as [err|].
    + destruct (error_eqb err io_EOF) eqn:Heof; [|done].
      now intros [= <- <-].
    + destruct (YoutubifyPlatform.io_Copy w filePath rest (S k)
                  (<[filePath := c ++ chunk]> base))
        as [[r fs2] tr2] eqn:Hloop.
      intros [= -> -> <-]. apply IH in Hloop as [Heof ->].
      now rewrite <- app_assoc.
Qed.

End Completeness.

(** X11.  In any world, a ShrutiAPI [Download] that was not served from
    the cache and returned without error got a token and a response with
    status 200 whose body ended with [io.EOF], and the file at the
    returned path holds every byte that body delivered, at least one: a
    download reported as successful is never truncated, whatever the
    context, the writes and the reads did. *)
Theorem X11_shruti_success_is_complete
    (chk : FS -> string -> string * option error)
    (fuel : nat) (w : World) (s : ShrutiAPIPlatform.t) (track : Track)
    (fs fs' : FS) (path : string) (tr : list Event) :
  (chk fs (ID track)).2 ≠ None ->
  ShrutiAPIPlatform.Download chk fuel w s track fs
  = Some ((path, None), fs', tr) ->
  exists token tr0 resp tr1,
    ShrutiAPIPlatform.getDownloadToken w s (ID track)
      (ShrutiAPIPlatform.mediaType_of track) = ((token, None), tr0) ∧
    http_Client_do fuel
      (ShrutiAPIPlatform.client (ShrutiAPIPlatform.mediaType_of track))
      (data_plane w)
      (ShrutiAPIPlatform.streamURL s (ID track)
         (ShrutiAPIPlatform.mediaType_of track) token) []
    = Some (inl resp, tr1) ∧
    StatusCode resp = 200 ∧
    error_eqb (ending (Body resp)) io_EOF = true ∧
    delivered (Body resp) ≠ [] ∧
    path = ShrutiAPIPlatform.filePath_of track ∧
    fs' = <[path := delivered (Body resp)]> fs.
Proof.
  intros Hmiss. unfold ShrutiAPIPlatform.Download.
  destruct (chk fs (ID track)) as [p0 [e0|]]; [|done].
  destruct (ensureDownloadsDir w); [done|].
  destruct (ShrutiAPIPlatform.getDownloadToken w s _ _)
    as [[token [terr|]] tr0]; [done|].
  unfold ShrutiAPIPlatform.downloadFile.
  destruct (new_request w _); [done|].
  destruct (http_Client_do _ _ _ _ _) as [[[resp|err] tr1]|] eqn:Hdo;
    [| |done].
  2: { now destruct (is_cancellation err). }
  destruct (Z.eqb_spec (StatusCode resp) 200) as [Hstatus|]; [|done].
  simpl negb. cbv iota.
  destruct (create_err w _); [done|].
  destruct (ShrutiAPIPlatform.stream_loop w _ (Body resp) 0 _)
    as [[[derr|] fs1] tr2] eqn:Hloop; [done|].
  apply stream_loop_success in Hloop as [Heof ->]. simpl app.
  unfold os_Stat. rewrite lookup_insert_eq. simpl.
  destruct (Z.eqb_spec (Z.of_nat (length (delivered (Body resp)))) 0)
    as [|Hsize]; [done|].
  intros [= <- <- <-]. exists token, tr0, resp, tr1.
  repeat split; try done. intros Hnil. rewrite Hnil in Hsize. now apply Hsize.
Qed.

Lemma X11_witness :
  exists token tr0 resp tr1,
    ShrutiAPIPlatform.getDownloadToken world_ok ShrutiAPIPlatform.registered
      "abc123" "audio" = ((token, None), tr0) ∧
    http_Client_do 1 (ShrutiAPIPlatform.client "audio") (data_plane world_ok)
      (ShrutiAPIPlatform.streamURL ShrutiAPIPlatform.registered "abc123"
         "audio" token) []
    = Some (inl resp, tr1) ∧
    StatusCode resp = 200 ∧
    error_eqb (ending (Body resp)) io_EOF = true ∧
    delivered (Body resp) ≠ [] ∧
    "downloads/abc123.mp3" = ShrutiAPIPlatform.filePath_of audio_track ∧
    ({["downloads/abc123.mp3" := [x61; x62; x63]]} : FS)
    = <["downloads/abc123.mp3" := delivered (Body resp)]> ∅.
Proof.
  apply (X11_shruti_success_is_complete checkDownloadedFile 1 world_ok
           ShrutiAPIPlatform.registered audio_track ∅
           {["downloads/abc123.mp3" := [x61; x62; x63]]}
           "downloads/abc123.mp3"
           [EvControlGet "https://shrutibots.site/download" "abc123" "audio";
            EvHttpGet "https://shrutibots.site/stream/abc123?type=audio&token=T1";
            EvCtxPoll; EvBodyRead; EvCtxPoll; EvBodyRead]).
  - vm_compute. discriminate.
  - vm_compute. reflexivity.
Defined.

(** X12.  In any world and for an identifier without separator, a
    Youtubify [Download] that found nothing cached
    and returned without error got a response with status 200 whose body
    ended with [io.EOF], and the file at the returned path holds every
    byte that body delivered, which may be none. *)
Theorem X12_youtubify_success_is_complete
    (key : string) (fuel : nat) (w : World) (track : Track)
    (fs fs' : FS) (path : string) (tr : list Event) :
  has_slash (ID track) = false ->
  fs !! ("downloads/" +:+ ID track +:+ ".mp3") = None ->
  YoutubifyPlatform.Download key fuel w track fs
  = Some ((path, None), fs', tr) ->
  exists resp tr1,
    http_Client_do fuel YoutubifyPlatform.client (data_plane w)
      (YoutubifyPlatform.download_url key (ID track)) []
    = Some (inl resp, tr1) ∧
    StatusCode resp = 200 ∧
    error_eqb (ending (Body resp)) io_EOF = true ∧
    path = "downloads/" +:+ ID track +:+ ".mp3" ∧
    fs' = <[path := delivered (Body resp)]> fs.
Proof.
  intros _ Hmiss.
  unfold YoutubifyPlatform.Download, YoutubifyPlatform.downloadAudio.
  unfold os_Stat. rewrite Hmiss. simpl fmap. cbv iota.
  destruct (mkdir_downloads w); [done|].
  destruct (new_request w _); [done|].
  destruct (http_Client_do _ _ _ _ _) as [[[resp|err] tr1]|] eqn:Hdo;
    [|done..].
  destruct (Z.eqb_spec (StatusCode resp) 200) as [Hstatus|]; [|done].
  simpl negb. cbv iota.
  destruct (create_err w _); [done|].
  destruct (YoutubifyPlatform.io_Copy w _ (Body resp) 0 _)
    as [[[cerr|] fs1] tr2] eqn:Hcopy; [done|].
  apply io_Copy_success in Hcopy as [Heof ->]. simpl app.
  intros [= <- <- <-]. now exists resp, tr1.
Qed.

Lemma X12_witness :
  exists resp tr1,
    http_Client_do 1 YoutubifyPlatform.client (data_plane world_empty_body)
      (YoutubifyPlatform.download_url "key" "abc123") []
    = Some (inl resp, tr1) ∧
    StatusCode resp = 200 ∧
    error_eqb (ending (Body resp)) io_EOF = true ∧
    "downloads/abc123.mp3" = "downloads/" +:+ ID audio_track +:+ ".mp3" ∧
    ({["downloads/abc123.mp3" := []]} : FS)
    = <["downloads/abc123.mp3" := delivered (Body resp)]> ∅.
Proof.
  apply (X12_youtubify_success_is_complete "key" 1 world_empty_body
           audio_track ∅ {["downloads/abc123.mp3" := []]}
           "downloads/abc123.mp3"
           [EvHttpGet "https://youtubify.me/download/audio?video_id=abc123&mode=download&no_redirect=1&api_key=key";
            EvBodyRead]).
  - reflexivity.
  - reflexivity.
  - vm_compute. reflexivity.
Defined.
